(** * Checkpoint loading of [fm/pretrained.py]

    A shallow embedding of [load_model_and_alphabet_core] and of the Python
    string, dict and set operations it is written with, followed by the
    properties of the key rewriting, the merge of the regression weights,
    the mask-row zeroing and the key-set check. *)

From Stdlib Require Import ZArith Ascii String.
From stdpp Require Import base option list functions gmap strings.

Local Open Scope string_scope.

(** ** Python [str] operations

    Keys are Python strings; they are modelled by [string], character by
    character (for a key outside ASCII, the bytes of its UTF-8 form, which
    no ASCII literal can match in the middle of a character).  The loader
    only calls [split], [replace] and [in] with the non-empty literals that
    appear in the source. *)

Module PyStr.

(** [strip_prefix p s] is [Some r] when [s = p +:+ r]. *)
Fixpoint strip_prefix (p s : string) : option string :=
  match p, s with
  | EmptyString, _ => Some s
  | String a p', String b s' =>
      if Ascii.eqb a b then strip_prefix p' s' else None
  | String _ _, EmptyString => None
  end.

(** [sub in s] *)
Fixpoint contains (sub s : string) : bool :=
  match strip_prefix sub s with
  | Some _ => true
  | None =>
      match s with
      | EmptyString => false
      | String _ t => contains sub t
      end
  end.

(** Leftmost occurrence of [sep] in [s]: the text before it and the text
    after it ([str.partition] without the separator). *)
Fixpoint find_sep (sep s : string) : option (string * string) :=
  match strip_prefix sep s with
  | Some rest => Some (EmptyString, rest)
  | None =>
      match s with
      | EmptyString => None
      | String c t =>
          match find_sep sep t with
          | Some (before, rest) => Some (String c before, rest)
          | None => None
          end
      end
  end.

(** [s.split(sep)]: the pieces between the occurrences of [sep], found
    from the left and not overlapping.  Every occurrence of a non-empty
    separator consumes a character, so [length s] rounds are enough. *)
Fixpoint split_fuel (fuel : nat) (sep s : string) : list string :=
  match fuel with
  | O => [s]
  | S fuel' =>
      match find_sep sep s with
      | None => [s]
      | Some (before, rest) => before :: split_fuel fuel' sep rest
      end
  end.

Definition split (sep s : string) : list string :=
  split_fuel (String.length s) sep s.

(** [''.join(pieces)] *)
Definition join (pieces : list string) : string :=
  foldr String.append EmptyString pieces.

(** [pieces[1:]] *)
Definition from_1 (pieces : list string) : list string := drop 1 pieces.

(** [s.replace(old, new)]: every occurrence of [old], found from the left
    and not overlapping, becomes [new]. *)
Fixpoint replace_fuel (fuel : nat) (old new s : string) : string :=
  match fuel with
  | O => s
  | S fuel' =>
      match find_sep old s with
      | None => s
      | Some (before, rest) =>
          before +:+ new +:+ replace_fuel fuel' old new rest
      end
  end.

Definition replace (old new s : string) : string :=
  replace_fuel (String.length s) old new s.

End PyStr.

(** ** The key rewrites of the three architectures *)

(** Shape shared by [pra], [prs], [prs1] and [prs2]:
    [lambda s: ''.join(s.split(sep)[1:] if guard in s else s)].
    Joining the characters of [s] with the empty string gives [s] back. *)
Definition strip_by (guard sep s : string) : string :=
  if PyStr.contains guard s
  then PyStr.join (PyStr.from_1 (PyStr.split sep s))
  else s.

Module RobertaLarge.
Definition pra := strip_by "encoder" "encoder_".
Definition prs1 := strip_by "encoder" "encoder.".
Definition prs2 := strip_by "sentence_encoder" "sentence_encoder.".
(** key of [model_state]: [prs1(prs2(arg[0]))] *)
Definition state_key (k : string) : string := prs1 (prs2 k).
End RobertaLarge.

Module ProteinBertBase.
Definition pra := strip_by "decoder" "decoder_".
Definition prs := strip_by "decoder" "decoder.".
Definition state_key (k : string) : string := prs k.
End ProteinBertBase.

Module MsaTransformer.
Definition pra := strip_by "encoder" "encoder_".
Definition prs1 := strip_by "encoder" "encoder.".
Definition prs2 := strip_by "sentence_encoder" "sentence_encoder.".
Definition prs3 (s : string) : string :=
  if PyStr.contains "row" s
  then PyStr.replace "row" "column" s
  else PyStr.replace "column" "row" s.
(** key of [model_state]: [prs1(prs2(prs3(arg[0])))] *)
Definition state_key (k : string) : string := prs1 (prs2 (prs3 k)).
End MsaTransformer.

(** ** Python [dict]

    A [dict] keeps its keys in insertion order and holds one entry per key;
    assigning to a key that is present replaces the value where it stands. *)

Module PyDict.
Section Dict.
Context {V : Type}.

(** [d.get(k)], [None] standing for the [KeyError] of [d[k]] *)
Fixpoint get (k : string) (d : list (string * V)) : option V :=
  match d with
  | [] => None
  | (k', v) :: d' => if String.eqb k k' then Some v else get k d'
  end.

(** [d[k] = v] *)
Fixpoint setitem (k : string) (v : V) (d : list (string * V))
  : list (string * V) :=
  match d with
  | [] => [(k, v)]
  | (k', v') :: d' =>
      if String.eqb k k' then (k', v) :: d' else (k', v') :: setitem k v d'
  end.

(** [d.update(other)] *)
Definition update (d other : list (string * V)) : list (string * V) :=
  fold_left (fun acc kv => setitem kv.1 kv.2 acc) other d.

(** [{f(arg[0]): arg[1] for arg in d.items()}] *)
Definition rekey (f : string -> string) (d : list (string * V))
  : list (string * V) :=
  fold_left (fun acc kv => setitem (f kv.1) kv.2 acc) d [].

(** [set(d.keys())] *)
Definition keys (d : list (string * V)) : gset string :=
  list_to_set (d.*1).
End Dict.
End PyDict.

(** ** Values, tensors and checkpoints *)

(** The values an [argparse.Namespace] of a checkpoint holds. *)
Inductive pyval :=
| PStr (s : string)
| PInt (z : Z)
| PBool (b : bool)
| PNone.

(** [v == s] for a string literal [s] *)
Definition is_str (v : pyval) (s : string) : bool :=
  match v with
  | PStr s' => String.eqb s' s
  | _ => false
  end.

(** Tensors live on a heap: the state dicts hold references, so that the
    dict built by the rewrite shares its tensors with the checkpoint. *)
Definition loc := nat.

Inductive model_type := ProteinBertModel | MSATransformer.

(** [model.__class__.__name__] *)
Definition class_name (t : model_type) : string :=
  match t with
  | ProteinBertModel => "ProteinBertModel"
  | MSATransformer => "MSATransformer"
  end.

(** A deserialized checkpoint: [data["args"]] and [data["model"]]. *)
Record checkpoint := Checkpoint {
  ck_args : list (string * pyval);
  ck_model : list (string * loc)
}.

Inductive key_msg :=
| MissingKeys (ks : gset string)      (* "Missing key(s) in state_dict: ..." *)
| UnexpectedKeys (ks : gset string).  (* "Unexpected key(s) in state_dict: ..." *)

(** What the loader can raise.  [RuntimeError] is the one of the key check,
    with the class name and the messages it is made of.  The two other
    errors of [torch] at the mask row are kept apart from it:
    [IndexOverflow] for an index that does not fit in 64 bits ("Overflow
    when unpacking long", a [ValueError] or a [RuntimeError] with the
    version of [torch], never an [IndexError]), and [InplaceRefused] for
    the [RuntimeError] of an in-place write that [torch] refuses ("a view
    of a leaf Variable that requires grad is being used in an in-place
    operation"). *)
Inductive exn :=
| AttributeError (attr : string)
| KeyError (key : string)
| IndexError
| IndexOverflow
| InplaceRefused
| ValueError (msg : string)
| RuntimeError (cls : string) (error_msgs : list key_msg)
| CollaboratorError (what : string).

(** The sets a [RuntimeError] of the key check reports; a set that is not
    listed in the message is empty. *)
Definition reported_missing (msgs : list key_msg) : gset string :=
  foldr (fun m acc => match m with MissingKeys ks => ks ∪ acc | _ => acc end) ∅ msgs.

Definition reported_unexpected (msgs : list key_msg) : gset string :=
  foldr (fun m acc => match m with UnexpectedKeys ks => ks ∪ acc | _ => acc end) ∅ msgs.

Definition expected_missing : gset string :=
  {[ "contact_head.regression.weight"; "contact_head.regression.bias" ]}.

Definition regression_warning : string :=
  "Regression weights not found, predicting contacts will not produce correct results.".

(** Truth value of a set: [if missing:] *)
Definition truthy (s : gset string) : bool := bool_decide (s ≠ ∅).

Section Loader.

(** Entries of a tensor; the loader only ever writes [zero] into them. *)
Context {scalar : Type} (zero : scalar).

(** A tensor as the list of its slices along the first dimension, each
    slice flattened; a tensor without dimensions has no slice. *)
Definition tensor := list (list scalar).

(** [t[i]] for an integer that fits in 64 bits: negative indices count
    from the end. *)
Definition row_index (n : nat) (i : Z) : option nat :=
  if ((0 <=? i) && (i <? Z.of_nat n))%Z then Some (Z.to_nat i)
  else if ((- Z.of_nat n <=? i) && (i <? 0))%Z then Some (Z.to_nat (i + Z.of_nat n))
  else None.

(** Whether [torch] can unpack the Python integer [i] into the 64-bit index
    of [t[i]]. *)
Definition fits_int64 (i : Z) : bool :=
  ((- 2 ^ 63 <=? i) && (i <? 2 ^ 63))%Z.

(** [t[i].zero_()] on a tensor that can be written in place, [None]
    standing for the [IndexError] *)
Definition zero_row (i : Z) (t : tensor) : option tensor :=
  match row_index (length t) i with
  | Some j => Some (alter (map (fun _ => zero)) j t)
  | None => None
  end.

(** What the caller of the loader can observe: its two checkpoints, the
    tensors they refer to and the warnings issued so far.
    [inplace_refused] tells for which tensors [torch] refuses an in-place
    write through a view: a leaf that requires grad, while autograd is
    recording (it is unless the caller has turned it off), and an inference
    tensor outside inference mode.  The loader never changes it. *)
Record world := World {
  model_data : checkpoint;
  regression_data : option checkpoint;
  tensors : loc -> tensor;
  inplace_refused : loc -> bool;
  warnings : list string
}.

Definition with_model (d : list (string * loc)) (w : world) : world :=
  {| model_data := {| ck_args := ck_args (model_data w); ck_model := d |};
     regression_data := regression_data w;
     tensors := tensors w;
     inplace_refused := inplace_refused w;
     warnings := warnings w |}.

Definition with_tensor (l : loc) (t : tensor) (w : world) : world :=
  {| model_data := model_data w;
     regression_data := regression_data w;
     tensors := <[ l := t ]> (tensors w);
     inplace_refused := inplace_refused w;
     warnings := warnings w |}.

Definition with_warning (msg : string) (w : world) : world :=
  {| model_data := model_data w;
     regression_data := regression_data w;
     tensors := tensors w;
     inplace_refused := inplace_refused w;
     warnings := (warnings w ++ [msg])%list |}.

(** Computations of the loader: they read and write the world and either
    return or raise; the world at a [raise] is the one reached so far. *)
Definition M (A : Type) : Type := world -> (exn + A) * world.

#[local] Instance M_ret : MRet M := fun A a w => (inr a, w).
#[local] Instance M_bind : MBind M := fun A B f m w =>
  match m w with
  | (inl e, w') => (inl e, w')
  | (inr a, w') => f a w'
  end.

Definition raise {A} (e : exn) : M A := fun w => (inl e, w).
Definition get_world : M world := fun w => (inr w, w).
Definition modify (f : world -> world) : M unit := fun w => (inr tt, f w).

(** A call into code outside this file; its failure is raised as it is. *)
Definition call {A} (r : string + A) : M A :=
  match r with
  | inl what => raise (CollaboratorError what)
  | inr a => mret a
  end.

(** The collaborators of the loader; their code is outside [pretrained.py]. *)
Context {Alphabet Model : Type}.
(** [fm.Alphabet.from_architecture(arch, theme=theme)] *)
Context (from_architecture : pyval -> string -> string + Alphabet).
(** [alphabet.mask_idx] *)
Context (mask_idx : Alphabet -> Z).
(** [model_type(Namespace(...), alphabet)], the namespace made of [model_args] *)
Context (construct :
  model_type -> list (string * pyval) -> Alphabet -> string + Model).
(** [model.state_dict().keys()] *)
Context (state_dict_keys : Model -> list string).
(** [model.load_state_dict(model_state, strict=...)] *)
Context (load_state_dict :
  Model -> list (string * tensor) -> bool -> string + Model).

(** The world once the regression weights, when there are any, have been
    written into [model_data["model"]]. *)
Definition merged (w : world) : world :=
  match regression_data w with
  | Some reg =>
      with_model (PyDict.update (ck_model (model_data w)) (ck_model reg)) w
  | None => w
  end.

(** Lines 54-55: [model_data["model"].update(regression_data["model"])] *)
Definition merge_regression : M unit :=
  w ← get_world;
  match regression_data w with
  | Some reg =>
      modify (with_model (PyDict.update (ck_model (model_data w)) (ck_model reg)))
  | None => mret tt
  end.

(** [model_data["args"].arch] *)
Definition get_arch : M pyval :=
  w ← get_world;
  match PyDict.get "arch" (ck_args (model_data w)) with
  | Some a => mret a
  | None => raise (AttributeError "arch")
  end.

(** Line 66: [model_state["embed_tokens.weight"][alphabet.mask_idx].zero_()],
    in the order of its evaluation: the lookup of the key, the indexing of
    the tensor, which unpacks the index and then selects the row, and the
    in-place write to the row, a view of the tensor. *)
Definition zero_mask_row (model_state : list (string * loc)) (alphabet : Alphabet)
  : M unit :=
  match PyDict.get "embed_tokens.weight" model_state with
  | None => raise (KeyError "embed_tokens.weight")
  | Some l =>
      w ← get_world;
      if negb (fits_int64 (mask_idx alphabet)) then raise IndexOverflow
      else
        match zero_row (mask_idx alphabet) (tensors w l) with
        | None => raise IndexError
        | Some t =>
            if inplace_refused w l then raise InplaceRefused
            else modify (with_tensor l t)
        end
  end.

(** Lines 59-89: the branch on the architecture. *)
Definition upgrade_state_dict (arch : pyval) (alphabet : Alphabet)
  : M (list (string * pyval) * list (string * loc) * model_type) :=
  w ← get_world;
  let args := ck_args (model_data w) in
  let model := ck_model (model_data w) in
  if is_str arch "roberta_large" then
    let model_args := PyDict.rekey RobertaLarge.pra args in
    let model_state := PyDict.rekey RobertaLarge.state_key model in
    zero_mask_row model_state alphabet;;
    mret (model_args, model_state, ProteinBertModel)
  else if is_str arch "protein_bert_base" then
    let model_args := PyDict.rekey ProteinBertBase.pra args in
    let model_state := PyDict.rekey ProteinBertBase.state_key model in
    mret (model_args, model_state, ProteinBertModel)
  else if is_str arch "msa_transformer" then
    let model_args := PyDict.rekey MsaTransformer.pra args in
    let model_state := PyDict.rekey MsaTransformer.state_key model in
    mret (model_args, model_state, MSATransformer)
  else raise (ValueError "Unknown architecture selected").

(** Lines 99-112: the key check made when there is no regression data. *)
Definition check_keys (cls : string) (expected_keys found_keys : gset string)
  : M unit :=
  let missing := (expected_keys ∖ found_keys) ∖ expected_missing in
  let error_msgs := if truthy missing then [MissingKeys missing] else [] in
  let unexpected := found_keys ∖ expected_keys in
  let error_msgs :=
    (error_msgs ++ if truthy unexpected then [UnexpectedKeys unexpected] else [])%list in
  match error_msgs with
  | _ :: _ => raise (RuntimeError cls error_msgs)
  | [] =>
      if truthy (expected_missing ∖ found_keys)
      then modify (with_warning regression_warning)
      else mret tt
  end.

(** Lines 54-96: everything up to the two key sets. *)
Definition build_model (theme : string)
  : M (Model * list (string * loc) * model_type * Alphabet) :=
  merge_regression;;
  arch ← get_arch;
  alphabet ← call (from_architecture arch theme);
  '(model_args, model_state, mtype) ← upgrade_state_dict arch alphabet;
  model ← call (construct mtype model_args alphabet);
  mret (model, model_state, mtype, alphabet).

(** A state dict with the tensors its references stand for. *)
Definition deref (w : world) (model_state : list (string * loc))
  : list (string * tensor) :=
  prod_map id (tensors w) <$> model_state.

(** Lines 114-116: the assignment, which reads the tensors as they are
    by then, and the result. *)
Definition assign (model : Model) (model_state : list (string * loc))
    (alphabet : Alphabet) (strict : bool) : M (Model * Alphabet) :=
  w ← get_world;
  model' ← call (load_state_dict model (deref w model_state) strict);
  mret (model', alphabet).

(** Lines 95-116: the key check, the assignment and the result. *)
Definition finish_load (model : Model) (model_state : list (string * loc))
    (mtype : model_type) (alphabet : Alphabet) : M (Model * Alphabet) :=
  let expected_keys : gset string := list_to_set (state_dict_keys model) in
  let found_keys := PyDict.keys model_state in
  w ← get_world;
  (if regression_data w is None
   then check_keys (class_name mtype) expected_keys found_keys
   else mret tt);;
  assign model model_state alphabet (bool_decide (regression_data w ≠ None)).

Definition load_model_and_alphabet_core (theme : string) : M (Model * Alphabet) :=
  '(model, model_state, mtype, alphabet) ← build_model theme;
  finish_load model model_state mtype alphabet.

End Loader.

(** ** Stand-ins for the collaborators

    Small concrete collaborators on which the loader can be run: an
    alphabet is its mask index, a model is the list of the keys of its
    state dict, and the assignment is the one of [torch]: with [strict] it
    refuses a state whose keys are not exactly those of the model. *)

Module Demo.
Definition from_architecture (arch : pyval) (theme : string) : string + Z :=
  inr 1%Z.

Definition mask_idx (alphabet : Z) : Z := alphabet.

Definition construct (keys : list string) (t : model_type)
    (args : list (string * pyval)) (alphabet : Z) : string + list string :=
  inr keys.

Definition state_dict_keys (model : list string) : list string := model.

Definition load_state_dict (model : list string)
    (state : list (string * tensor (scalar := Z))) (strict : bool)
  : string + list string :=
  if strict && negb (bool_decide
       ((list_to_set state.*1 : gset string) = list_to_set model))
  then inl "load_state_dict: the keys do not match"
  else inr model.

(** The loader over these collaborators, for a model with [keys]. *)
Definition load (keys : list string) (theme : string)
  : M (list string * Z) :=
  load_model_and_alphabet_core 0%Z from_architecture mask_idx
    (construct keys) state_dict_keys load_state_dict theme.

Definition build (keys : list string) (theme : string) :=
  build_model 0%Z from_architecture mask_idx (construct keys) theme.

(** Every tensor starts as the same three rows and may be written in
    place. *)
Definition some_tensor : tensor (scalar := Z) :=
  [[1; 2]; [3; 4]; [5; 6]]%Z.

Definition start (arch : string) (model : list (string * loc))
    (regression : option (list (string * loc))) : world (scalar := Z) :=
  {| model_data := {| ck_args := [("arch", PStr arch)]; ck_model := model |};
     regression_data := Checkpoint [] <$> regression;
     tensors := fun _ => some_tensor;
     inplace_refused := fun _ => false;
     warnings := [] |}.
End Demo.

(** ** The entry points

    The functions around the core: they fetch the checkpoint, from a file
    or from the hub, and hand it to the core.  Reading a file and
    downloading are collaborators; what they deserialize is a checkpoint
    whose tensors are on the heap. *)

Module PyPath.

(** [s.endswith(suffix)] *)
Fixpoint endswith (suffix s : string) : bool :=
  String.eqb suffix s ||
  match s with
  | EmptyString => false
  | String _ t => endswith suffix t
  end.

(** A path is the UTF-8 form of a Python [str]: each character is a byte
    that is not a continuation byte, followed by the continuation bytes
    [10xxxxxx] of its encoding, the bytes from 128 to 191. *)
Definition is_continuation (c : ascii) : bool :=
  ((128 <=? nat_of_ascii c) && (nat_of_ascii c <? 192))%nat.

(** A string that is one character. *)
Definition is_char (s : string) : bool :=
  match s with
  | EmptyString => false
  | String c t =>
      negb (is_continuation c) && forallb is_continuation (list_ascii_of_string t)
  end.

(** [len(s)]: the number of characters *)
Fixpoint len (s : string) : nat :=
  match s with
  | EmptyString => 0
  | String c t => if is_continuation c then len t else S (len t)
  end.

(** [s[:n]] for [n >= 0]: the first [n] characters, each with all of its
    bytes *)
Fixpoint take (n : nat) (s : string) : string :=
  match s with
  | EmptyString => EmptyString
  | String c t =>
      if is_continuation c then String c (take n t)
      else
        match n with
        | O => EmptyString
        | S n' => String c (take n' t)
        end
  end.

(** [s[:-n]] for [n > 0]: all but the last [n] characters, nothing when
    there are no more than [n]. *)
Definition drop_last (n : nat) (s : string) : string :=
  take (len s - n) s.

(** [Path(s).name] on a POSIX path: the last of the components between the
    slashes that is neither empty nor ["."], the empty string when there is
    none. *)
Definition name (s : string) : string :=
  default EmptyString
    (last (filter (fun c => c <> EmptyString /\ c <> ".") (PyStr.split "/" s))).

End PyPath.

(** What reading a checkpoint can raise, as far as the entry points tell
    the exceptions apart. *)
Inductive io_exn :=
| FileNotFoundError (path : string)
| LoadRuntimeError (what : string)   (* a [RuntimeError] of the download *)
| OtherLoadError (what : string).

(** Line 47: [model_location[:-3] + "-contact-regression.pt"] *)
Definition regression_location (model_location : string) : string :=
  PyPath.drop_last 3 model_location +:+ "-contact-regression.pt".

(** Line 38 *)
Definition model_url (model_name : string) : string :=
  "https://dl.fbaipublicfiles.com/fair-esm/models/" +:+ model_name +:+ ".pt".

(** Line 33 *)
Definition regression_url (model_name : string) : string :=
  "https://dl.fbaipublicfiles.com/fair-esm/regression/" +:+ model_name
    +:+ "-contact-regression.pt".

Section Entry.

Context {scalar : Type} (zero : scalar).
Context {Alphabet Model : Type}.
Context (from_architecture : pyval -> string -> string + Alphabet).
Context (mask_idx : Alphabet -> Z).
Context (construct :
  model_type -> list (string * pyval) -> Alphabet -> string + Model).
Context (state_dict_keys : Model -> list string).
Context (load_state_dict :
  Model -> list (string * tensor (scalar:=scalar)) -> bool -> string + Model).

(** [torch.load(path, map_location="cpu")] *)
Context (torch_load : string -> io_exn + checkpoint).
(** [torch.hub.load_state_dict_from_url(url, progress=False, map_location="cpu")] *)
Context (load_state_dict_from_url : string -> io_exn + checkpoint).
(** [torch.hub.get_dir()] *)
Context (hub_dir : string).
(** What the deserialized checkpoints refer to: at each location a tensor,
    and whether [torch] refuses an in-place write to it. *)
Context (heap : loc -> tensor (scalar:=scalar) * bool).

(** An entry point either fails while fetching or runs the core. *)
Definition outcome : Type :=
  io_exn + ((exn + (Model * Alphabet)) * world (scalar:=scalar)).

(** [load_model_and_alphabet_core(model_data, regression_data, theme)] *)
Definition run_core (md : checkpoint) (rd : option checkpoint) (theme : string)
  : outcome :=
  inr (load_model_and_alphabet_core zero from_architecture mask_idx construct
         state_dict_keys load_state_dict theme
         {| model_data := md; regression_data := rd;
            tensors := fst ∘ heap; inplace_refused := snd ∘ heap;
            warnings := [] |}).

(** Lines 19-29 *)
Definition load_hub_workaround (url : string) : io_exn + checkpoint :=
  match load_state_dict_from_url url with
  | inl (LoadRuntimeError _) =>
      torch_load (hub_dir +:+ "/checkpoints/" +:+ PyPath.name url)
  | r => r
  end.

(** Lines 32-35 *)
Definition load_regression_hub (model_name : string) : io_exn + checkpoint :=
  load_hub_workaround (regression_url model_name).

(** Lines 37-41 *)
Definition load_model_and_alphabet_hub (model_name theme : string) : outcome :=
  match load_hub_workaround (model_url model_name) with
  | inl e => inl e
  | inr md =>
      match load_regression_hub model_name with
      | inl e => inl e
      | inr rd => run_core md (Some rd) theme
      end
  end.

(** Lines 43-51 *)
Definition load_model_and_alphabet_local (model_location theme : string)
  : outcome :=
  match torch_load model_location with
  | inl e => inl e
  | inr md =>
      match torch_load (regression_location model_location) with
      | inl (FileNotFoundError _) => run_core md None theme
      | inl e => inl e
      | inr rd => run_core md (Some rd) theme
      end
  end.

(** Lines 13-17; the theme is the default of the function called. *)
Definition load_model_and_alphabet (model_name : string) : outcome :=
  if PyPath.endswith ".pt" model_name
  then load_model_and_alphabet_local model_name "protein"
  else load_model_and_alphabet_hub model_name "protein".

(** Lines 118-122 *)
Definition esm1_t34_670M_UR50S_local : outcome :=
  load_model_and_alphabet_local
    "/checkpoint/bioseq_nonsecure/br2020/br4/checkpoint94.pt" "protein".

(** Lines 124-172 *)
Definition esm1_t34_670M_UR50S_hub : outcome :=
  load_model_and_alphabet_hub "esm1_t34_670M_UR50S" "protein".
Definition esm1_t34_670M_UR50S : outcome :=
  load_model_and_alphabet_hub "esm1_t34_670M_UR50S" "protein".
Definition esm1_t34_670M_UR50D : outcome :=
  load_model_and_alphabet_hub "esm1_t34_670M_UR50D" "protein".
Definition esm1_t34_670M_UR100 : outcome :=
  load_model_and_alphabet_hub "esm1_t34_670M_UR100" "protein".
Definition esm1_t12_85M_UR50S : outcome :=
  load_model_and_alphabet_hub "esm1_t12_85M_UR50S" "protein".
Definition esm1_t6_43M_UR50S : outcome :=
  load_model_and_alphabet_hub "esm1_t6_43M_UR50S" "protein".
Definition esm1b_t33_650M_UR50S : outcome :=
  load_model_and_alphabet_hub "esm1b_t33_650M_UR50S" "protein".
Definition esm_msa1_t12_100M_UR50S : outcome :=
  load_model_and_alphabet_hub "esm_msa1_t12_100M_UR50S" "protein".

(** Lines 175-198 *)
Definition esm1b_rna_t12 : outcome :=
  load_model_and_alphabet_local "./pretrained/RNA-FM_pretrained.pth" "rna".

End Entry.

(** ** Stand-ins for fetching

    An alphabet that knows the theme ["protein"] only, a hub whose download
    of a model fails on the archive while that of the regression weights
    goes through, and a disk that holds the model in the cache of the
    hub. *)

Module DemoIO.
Definition from_architecture (arch : pyval) (theme : string) : string + Z :=
  if String.eqb theme "protein" then inr 1%Z else inl "Unknown theme selected".

Definition a_model : checkpoint :=
  {| ck_args := [("arch", PStr "protein_bert_base")];
     ck_model := [("decoder.x", 0)] |}.

Definition a_regression : checkpoint :=
  {| ck_args := []; ck_model := [("y", 1)] |}.

Definition torch_load (path : string) : io_exn + checkpoint :=
  if String.eqb path "/cache/hub/checkpoints/esm1_t6_43M_UR50S.pt"
  then inr a_model
  else inl (FileNotFoundError path).

Definition load_state_dict_from_url (url : string) : io_exn + checkpoint :=
  if String.eqb url (model_url "esm1_t6_43M_UR50S")
  then inl (LoadRuntimeError "zip archive")
  else if String.eqb url (regression_url "esm1_t6_43M_UR50S")
  then inr a_regression
  else inl (OtherLoadError "HTTP Error 404").
End DemoIO.

(** * Properties

    The facts come in the order of the definitions above. *)

#[local] Arguments String.append !_ _ / : simpl nomatch.

(** ** Strings *)

Module PyStrFacts.
Import PyStr.

Lemma append_assoc (a b c : string) : (a +:+ b) +:+ c = a +:+ b +:+ c.
Proof. induction a as [|x a IH]; simpl; [done | by rewrite IH]. Qed.

Lemma append_length (a b : string) :
  String.length (a +:+ b) = String.length a + String.length b.
Proof. induction a as [|x a IH]; simpl; [done | by rewrite IH]. Qed.

Lemma strip_prefix_Some p s r : strip_prefix p s = Some r -> s = p +:+ r.
Proof.
  revert s. induction p as [|a p IH]; intros [|b s]; simpl; try congruence.
  destruct (Ascii.eqb_spec a b) as [->|]; [|done].
  intros H. by rewrite (IH _ H).
Qed.

Lemma strip_prefix_app p r : strip_prefix p (p +:+ r) = Some r.
Proof. induction p as [|a p IH]; simpl; [done | by rewrite Ascii.eqb_refl]. Qed.

(** [sub in s] holds exactly when [s] can be cut around a copy of [sub]. *)
Lemma contains_true sub s :
  contains sub s = true <-> exists u v, s = u +:+ sub +:+ v.
Proof.
  split.
  - induction s as [|c t IH]; simpl.
    + destruct (strip_prefix sub "") as [r|] eqn:E; [|done].
      intros _. exists "", r. simpl. by apply strip_prefix_Some.
    + destruct (strip_prefix sub (String c t)) as [r|] eqn:E.
      * intros _. exists "", r. simpl. by apply strip_prefix_Some.
      * intros H. destruct (IH H) as (u & v & ->). by exists (String c u), v.
  - intros (u & v & ->). induction u as [|c u IH]; simpl.
    + destruct (sub +:+ v) eqn:E; simpl.
      * destruct sub; [done | discriminate].
      * by rewrite <- E, strip_prefix_app.
    + by destruct (strip_prefix sub _); [|apply IH].
Qed.

Lemma contains_false_cons sub c t :
  contains sub (String c t) = false ->
  strip_prefix sub (String c t) = None /\ contains sub t = false.
Proof. simpl. by destruct (strip_prefix sub _). Qed.

Lemma contains_false_suffix sub u s :
  contains sub (u +:+ s) = false -> contains sub s = false.
Proof.
  intros H. destruct (contains sub s) eqn:E; [|done].
  apply contains_true in E as (a & b & ->).
  rewrite <- H. symmetry. apply contains_true.
  exists (u +:+ a), b. by rewrite append_assoc.
Qed.

(** A string without [sub] has no copy of a string that [sub] is part of. *)
Lemma contains_false_super sub x y s :
  contains sub s = false -> contains (x +:+ sub +:+ y) s = false.
Proof.
  intros H. destruct (contains (x +:+ sub +:+ y) s) eqn:E; [|done].
  apply contains_true in E as (a & b & ->).
  rewrite <- H. symmetry. apply contains_true.
  exists (a +:+ x), (y +:+ b). by rewrite !append_assoc.
Qed.

Lemma find_sep_None sep s : contains sep s = false -> find_sep sep s = None.
Proof.
  induction s as [|c t IH]; simpl.
  - by destruct (strip_prefix sep "").
  - destruct (strip_prefix sep (String c t)); [done|].
    intros H. by rewrite (IH H).
Qed.

Lemma find_sep_Some sep s before rest :
  find_sep sep s = Some (before, rest) -> s = before +:+ sep +:+ rest.
Proof.
  revert before. induction s as [|c t IH]; intros before; simpl.
  - destruct (strip_prefix sep "") eqn:E; [|done].
    intros [= <- <-]. simpl. by apply strip_prefix_Some.
  - destruct (strip_prefix sep (String c t)) eqn:E.
    + intros [= <- <-]. simpl. by apply strip_prefix_Some.
    + destruct (find_sep sep t) as [[b a]|]; [|done].
      intros [= <- <-]. simpl. by rewrite <- (IH b).
Qed.

Lemma find_sep_shorter sep s before rest :
  sep <> "" -> find_sep sep s = Some (before, rest) ->
  String.length rest < String.length s.
Proof.
  intros Hsep H. apply find_sep_Some in H. subst s.
  rewrite !append_length. destruct sep; [done | simpl; lia].
Qed.

Lemma append_nil_r (s : string) : s +:+ "" = s.
Proof. induction s as [|c s IH]; simpl; [done | by rewrite IH]. Qed.

Lemma split_fuel_no_sep f sep s : contains sep s = false -> split_fuel f sep s = [s].
Proof. intros H. apply find_sep_None in H. destruct f; simpl; [done | by rewrite H]. Qed.

(** More rounds than [length s] change nothing in [split]. *)
Lemma split_fuel_enough sep :
  sep <> "" -> forall f1 f2 s,
  String.length s <= f1 -> String.length s <= f2 ->
  split_fuel f1 sep s = split_fuel f2 sep s.
Proof.
  intros Hsep. induction f1 as [|f1 IH]; intros f2 s H1 H2.
  - destruct s; [|simpl in H1; lia].
    destruct f2; simpl; [done|]. by destruct sep.
  - destruct f2 as [|f2].
    + destruct s; [|simpl in H2; lia]. simpl. by destruct sep.
    + simpl. destruct (find_sep sep s) as [[b a]|] eqn:E; [|done].
      apply find_sep_shorter in E; [|done].
      rewrite (IH f2 a); [done | lia | lia].
Qed.

Lemma replace_fuel_enough old new :
  old <> "" -> forall f1 f2 s,
  String.length s <= f1 -> String.length s <= f2 ->
  replace_fuel f1 old new s = replace_fuel f2 old new s.
Proof.
  intros Hold. induction f1 as [|f1 IH]; intros f2 s H1 H2.
  - destruct s; [|simpl in H1; lia].
    destruct f2; simpl; [done|]. by destruct old.
  - destruct f2 as [|f2].
    + destruct s; [|simpl in H2; lia]. simpl. by destruct old.
    + simpl. destruct (find_sep old s) as [[b a]|] eqn:E; [|done].
      apply find_sep_shorter in E; [|done].
      rewrite (IH f2 a); [done | lia | lia].
Qed.

Lemma replace_fuel_step old new f s :
  old <> "" -> String.length s <= f ->
  replace_fuel f old new s =
    match find_sep old s with
    | Some (before, rest) => before +:+ new +:+ replace_fuel f old new rest
    | None => s
    end.
Proof.
  intros Hold Hf. destruct f as [|f].
  - destruct s; [|simpl in Hf; lia]. simpl. by destruct old.
  - transitivity
      (match find_sep old s with
       | Some (before, rest) => before +:+ new +:+ replace_fuel f old new rest
       | None => s
       end); [done|].
    destruct (find_sep old s) as [[b a]|] eqn:E; [|done].
    apply find_sep_shorter in E; [|done].
    do 2 f_equal. apply replace_fuel_enough; [done | lia | lia].
Qed.

(** [replace] read one character at a time. *)
Lemma replace_cons old new c t :
  old <> "" ->
  replace old new (String c t) =
    match strip_prefix old (String c t) with
    | Some r => new +:+ replace old new r
    | None => String c (replace old new t)
    end.
Proof.
  intros Hold. unfold replace.
  rewrite (replace_fuel_step old new _ (String c t)); [|done|done].
  cbn [find_sep].
  destruct (strip_prefix old (String c t)) as [r|] eqn:E.
  - cbn [String.append]. f_equal. apply replace_fuel_enough; [done| |done].
    apply strip_prefix_Some in E.
    assert (String.length (String c t) = String.length (old +:+ r)) as HL
      by (by rewrite E).
    rewrite append_length in HL. destruct old; [done|]. simpl in HL. simpl. lia.
  - rewrite (replace_fuel_step old new _ t); [|done|done].
    destruct (find_sep old t) as [[b a]|] eqn:F; [|done].
    cbn [String.append]. do 3 f_equal. pose proof (find_sep_shorter _ _ _ _ Hold F).
    apply replace_fuel_enough; [done | simpl; lia | lia].
Qed.

Lemma char_absent_cons h x w :
  contains (String h "") (String x w) = false ->
  h <> x /\ contains (String h "") w = false.
Proof.
  intros H. apply contains_false_cons in H as [H1 H2]. split; [|done].
  simpl in H1. by destruct (Ascii.eqb_spec h x).
Qed.

(** A text [w] free of the first character of [new] that starts the
    replaced string already started the original one. *)
Lemma strip_prefix_replace old h u w :
  old <> "" -> contains (String h "") w = false ->
  forall t r, strip_prefix w (replace old (String h u) t) = Some r ->
  exists r', strip_prefix w t = Some r'.
Proof.
  intros Hold. induction w as [|x w IH]; intros Hw t r; [by eexists|].
  apply char_absent_cons in Hw as [Hx Hw].
  destruct t as [|c t]; [done|].
  rewrite replace_cons by done.
  destruct (strip_prefix old (String c t)) as [r0|]; simpl.
  - destruct (Ascii.eqb_spec x h); [congruence | done].
  - destruct (Ascii.eqb_spec x c); [|done]. by apply IH.
Qed.

(** Replacing [old] by [new] and then [new] by [old] gives the string
    back when it held no [new] to begin with and the first character of
    [new] does not come back later in [new]. *)
Lemma replace_undo old h u :
  old <> "" -> contains (String h "") u = false ->
  forall s, contains (String h u) s = false ->
  replace (String h u) old (replace old (String h u) s) = s.
Proof.
  intros Hold Hu s. remember (String.length s) as n eqn:Hn.
  revert s Hn. induction (lt_wf n) as [n _ IH]. intros s -> Hs.
  destruct s as [|c t]; [done|].
  rewrite replace_cons by done.
  destruct (strip_prefix old (String c t)) as [r|] eqn:E.
  - apply strip_prefix_Some in E.
    change (String h u +:+ ?x) with (String h (u +:+ x)).
    rewrite replace_cons by done.
    change (String h (u +:+ ?x)) with (String h u +:+ x).
    rewrite strip_prefix_app, E. f_equal.
    rewrite E in Hs. apply (IH (String.length r)); [|done|].
    + rewrite E, append_length. destruct old; [done | simpl; lia].
    + by eapply contains_false_suffix.
  - apply contains_false_cons in Hs as [Hp Hs].
    rewrite replace_cons by done. simpl.
    destruct (Ascii.eqb_spec h c) as [->|].
    + destruct (strip_prefix u (replace old (String c u) t)) as [r|] eqn:F.
      * apply strip_prefix_replace in F as [r' F]; [|done..].
        simpl in Hp. by rewrite Ascii.eqb_refl, F in Hp.
      * f_equal. apply (IH (String.length t)); [simpl; lia|done|done].
    + f_equal. apply (IH (String.length t)); [simpl; lia|done|done].
Qed.

(** No [old] is left after the replacement when [old] cannot start
    inside a copy of [new] nor straddle its end. *)
Lemma contains_skip a v u s :
  contains (String a "") u = false ->
  contains (String a v) (u +:+ s) = contains (String a v) s.
Proof.
  induction u as [|x u IH]; [done|]. intros H.
  apply char_absent_cons in H as [Hx H]. simpl.
  destruct (Ascii.eqb_spec a x); [done|]. by apply IH.
Qed.

Lemma replace_clears a v h u :
  contains (String a "") (String h u) = false ->
  contains (String h "") v = false ->
  forall s, contains (String a v) (replace (String a v) (String h u) s) = false.
Proof.
  intros Ha Hh s. remember (String.length s) as n eqn:Hn.
  revert s Hn. induction (lt_wf n) as [n _ IH]. intros s ->.
  destruct s as [|c t]; [done|].
  rewrite replace_cons by done.
  destruct (strip_prefix (String a v) (String c t)) as [r|] eqn:E.
  - rewrite contains_skip by done. apply (IH (String.length r)); [|done].
    apply strip_prefix_Some in E. rewrite E, append_length. simpl. lia.
  - simpl. destruct (Ascii.eqb_spec a c) as [->|].
    + destruct (strip_prefix v _) as [r|] eqn:F.
      * apply strip_prefix_replace in F as [r' F]; [|done..].
        simpl in E. by rewrite Ascii.eqb_refl, F in E.
      * apply (IH (String.length t)); [simpl; lia|done].
    + apply (IH (String.length t)); [simpl; lia|done].
Qed.

Lemma contains_prefix sub r : contains sub (sub +:+ r) = true.
Proof. apply contains_true. by exists "", r. Qed.

Lemma contains_cons sub c t :
  contains sub t = true -> contains sub (String c t) = true.
Proof. intros H. simpl. by destruct (strip_prefix sub _). Qed.

(** A string that holds [old] holds [new] after the replacement. *)
Lemma replace_inserts old new :
  old <> "" ->
  forall s, contains old s = true -> contains new (replace old new s) = true.
Proof.
  intros Hold. induction s as [|c t IH].
  - by destruct old.
  - intros H. rewrite replace_cons by done. simpl in H.
    destruct (strip_prefix old (String c t)).
    + apply contains_prefix.
    + apply contains_cons. by apply IH.
Qed.

End PyStrFacts.

Import PyStr PyStrFacts.

(** ** The key rewrites *)

Lemma strip_by_absent guard sep s :
  contains guard s = false -> strip_by guard sep s = s.
Proof. unfold strip_by. by intros ->. Qed.

(** A string with a single separator is cut in two and keeps what follows. *)
Lemma strip_by_once guard sep s before rest :
  sep <> "" -> contains guard s = true ->
  find_sep sep s = Some (before, rest) -> contains sep rest = false ->
  strip_by guard sep s = rest.
Proof.
  intros Hsep Hg Hf Hr. unfold strip_by, split. rewrite Hg.
  pose proof (find_sep_shorter _ _ _ _ Hsep Hf) as Hlen.
  destruct (String.length s) as [|n]; [lia|].
  cbn [split_fuel]. rewrite Hf, split_fuel_no_sep by done.
  simpl. apply append_nil_r.
Qed.

Lemma encoder_free_dot r : contains "encoder" r = false -> contains "encoder." r = false.
Proof. apply (contains_false_super "encoder" "" "."). Qed.

Lemma encoder_free_sentence r :
  contains "encoder" r = false -> contains "sentence_encoder" r = false.
Proof. apply (contains_false_super "encoder" "sentence_" ""). Qed.

Lemma encoder_free_sentence_dot r :
  contains "encoder" r = false -> contains "sentence_encoder." r = false.
Proof. apply (contains_false_super "encoder" "sentence_" "."). Qed.

(** C5, as the code has it.  The rewrite of [roberta_large] cuts at the
    first ["sentence_encoder."] and then at the first ["encoder."] wherever
    they stand, so what it promises is about keys whose remainder holds no
    ["encoder"]: such a remainder [r] is returned as it is, and
    ["encoder." r], ["sentence_encoder." r] and
    ["encoder.sentence_encoder." r] are all rewritten to [r].  The two
    keys of the specification are instances. *)
Theorem state_key_strips_leading (r : string) :
  contains "encoder" r = false ->
  RobertaLarge.state_key r = r /\
  RobertaLarge.state_key ("encoder." +:+ r) = r /\
  RobertaLarge.state_key ("sentence_encoder." +:+ r) = r /\
  RobertaLarge.state_key ("encoder.sentence_encoder." +:+ r) = r /\
  RobertaLarge.state_key "encoder.sentence_encoder.foo.weight" = "foo.weight" /\
  RobertaLarge.state_key "plain.weight" = "plain.weight".
Proof.
  intros Hr.
  pose proof (encoder_free_dot r Hr) as Hd.
  pose proof (encoder_free_sentence r Hr) as Hs.
  pose proof (encoder_free_sentence_dot r Hr) as Hsd.
  assert (RobertaLarge.prs1 r = r) as H1 by (by apply strip_by_absent).
  assert (RobertaLarge.prs2 r = r) as H2 by (by apply strip_by_absent).
  unfold RobertaLarge.state_key.
  repeat split; try reflexivity.
  - by rewrite H2.
  - unfold RobertaLarge.prs2 at 1. rewrite strip_by_absent by exact Hs.
    by apply (strip_by_once _ _ _ "").
  - rewrite <- H1 at 2. f_equal. by apply (strip_by_once _ _ _ "").
  - rewrite <- H1 at 2. f_equal. by apply (strip_by_once _ _ _ "encoder.").
Qed.

Lemma state_key_strips_leading_witness :
  contains "encoder" "layers.0.fc1.bias" = false /\
  RobertaLarge.state_key ("encoder.sentence_encoder." +:+ "layers.0.fc1.bias")
    = "layers.0.fc1.bias".
Proof.
  split; [reflexivity|].
  apply (state_key_strips_leading "layers.0.fc1.bias"). reflexivity.
Defined.

(** C5 as the specification words it fails: a key that starts with
    neither prefix is still cut when ["encoder."] stands further in. *)
Lemma state_key_cuts_inner_encoder :
  strip_prefix "encoder." "x.encoder.y" = None /\
  strip_prefix "sentence_encoder." "x.encoder.y" = None /\
  RobertaLarge.state_key "x.encoder.y" = "y" /\
  RobertaLarge.state_key "x.encoder.y" <> "x.encoder.y".
Proof. repeat split; done. Qed.

(** C8.  On a key that holds exactly one of ["row"] and ["column"], the
    swap [prs3] of [msa_transformer] applied twice gives the key back; the
    two keys of the specification are rewritten into each other. *)
Theorem prs3_involutive (k : string) :
  xorb (contains "row" k) (contains "column" k) = true ->
  MsaTransformer.prs3 (MsaTransformer.prs3 k) = k /\
  MsaTransformer.state_key "layer.rows_attn.weight" = "layer.columns_attn.weight" /\
  MsaTransformer.state_key "layer.columns_attn.weight" = "layer.rows_attn.weight".
Proof.
  intros Hone. split; [|by split].
  unfold MsaTransformer.prs3.
  destruct (contains "row" k) eqn:Hrow, (contains "column" k) eqn:Hcol;
    try discriminate.
  - rewrite (replace_clears "r" "ow" "c" "olumn") by done.
    by apply (replace_undo "row" "c" "olumn").
  - rewrite (replace_inserts "column" "row") by done.
    by apply (replace_undo "column" "r" "ow").
Qed.

Lemma prs3_involutive_witness :
  xorb (contains "row" "layer.columns_attn.weight")
       (contains "column" "layer.columns_attn.weight") = true /\
  MsaTransformer.prs3 (MsaTransformer.prs3 "layer.columns_attn.weight")
    = "layer.columns_attn.weight".
Proof.
  split; [reflexivity|].
  apply (prs3_involutive "layer.columns_attn.weight"). reflexivity.
Defined.

(** ** More on the key rewrites *)

Lemma find_sep_leading sep r : find_sep sep (sep +:+ r) = Some ("", r).
Proof. destruct (sep +:+ r) eqn:E; simpl; by rewrite <- E, strip_prefix_app. Qed.

(** A leading separator is taken off when nothing of the guard follows. *)
Lemma strip_by_leading guard sep r :
  sep <> "" -> contains guard (sep +:+ r) = true -> contains sep r = false ->
  strip_by guard sep (sep +:+ r) = r.
Proof.
  intros Hsep Hg Hr.
  apply (strip_by_once guard sep _ "" r); [done | done | apply find_sep_leading | done].
Qed.

(** With the guard in the key and no separator, nothing is left of it. *)
Lemma strip_by_no_sep guard sep s :
  contains guard s = true -> contains sep s = false -> strip_by guard sep s = "".
Proof.
  intros Hg Hs. unfold strip_by, split. rewrite Hg.
  by rewrite split_fuel_no_sep.
Qed.

Lemma decoder_free_dot r : contains "decoder" r = false -> contains "decoder." r = false.
Proof. apply (contains_false_super "decoder" "" "."). Qed.

Lemma decoder_free_underscore r :
  contains "decoder" r = false -> contains "decoder_" r = false.
Proof. apply (contains_false_super "decoder" "" "_"). Qed.

Lemma encoder_free_underscore r :
  contains "encoder" r = false -> contains "encoder_" r = false.
Proof. apply (contains_false_super "encoder" "" "_"). Qed.

(** X1.  A key of a [roberta_large] checkpoint that holds ["encoder"] but
    never ["encoder."] is rewritten to the empty string, and so is an
    argument name that holds ["encoder"] but never ["encoder_"]. *)
Theorem roberta_large_erases_bare_encoder (s : string) :
  contains "encoder" s = true ->
  (contains "encoder." s = false -> RobertaLarge.state_key s = "") /\
  (contains "encoder_" s = false -> RobertaLarge.pra s = "").
Proof.
  intros He. split.
  - intros Hd. unfold RobertaLarge.state_key.
    destruct (contains "sentence_encoder" s) eqn:Hs.
    + unfold RobertaLarge.prs2. rewrite strip_by_no_sep; [done|done|].
      by apply (contains_false_super "encoder." "sentence_" "").
    + unfold RobertaLarge.prs2 at 1. rewrite strip_by_absent by done.
      by apply strip_by_no_sep.
  - intros Hu. by apply strip_by_no_sep.
Qed.

Lemma roberta_large_erases_bare_encoder_witness :
  contains "encoder" "encoder" = true /\
  contains "encoder." "encoder" = false /\
  RobertaLarge.state_key "encoder" = "".
Proof.
  split; [reflexivity|]. split; [reflexivity|].
  apply (roberta_large_erases_bare_encoder "encoder"); reflexivity.
Defined.

(** X2.  The rewrites of [protein_bert_base] leave a name without
    ["decoder"] as it is, and take a leading ["decoder."] off a key and a
    leading ["decoder_"] off an argument name when no ["decoder"] follows. *)
Theorem protein_bert_base_strips_leading (r : string) :
  contains "decoder" r = false ->
  ProteinBertBase.state_key r = r /\
  ProteinBertBase.state_key ("decoder." +:+ r) = r /\
  ProteinBertBase.pra r = r /\
  ProteinBertBase.pra ("decoder_" +:+ r) = r.
Proof.
  intros Hr.
  pose proof (decoder_free_dot r Hr) as Hd.
  pose proof (decoder_free_underscore r Hr) as Hu.
  unfold ProteinBertBase.state_key, ProteinBertBase.prs, ProteinBertBase.pra.
  repeat split.
  - by apply strip_by_absent.
  - by apply strip_by_leading.
  - by apply strip_by_absent.
  - by apply strip_by_leading.
Qed.

Lemma protein_bert_base_strips_leading_witness :
  contains "decoder" "layers.0.fc1.bias" = false /\
  ProteinBertBase.state_key ("decoder." +:+ "layers.0.fc1.bias")
    = "layers.0.fc1.bias".
Proof.
  split; [reflexivity|].
  apply (protein_bert_base_strips_leading "layers.0.fc1.bias"). reflexivity.
Defined.

(** X3.  The argument rewrite of [roberta_large] and [msa_transformer]
    leaves a name without ["encoder"] as it is (["arch"] among them) and
    takes a leading ["encoder_"] off when no ["encoder"] follows. *)
Theorem encoder_args_strip_leading (r : string) :
  contains "encoder" r = false ->
  RobertaLarge.pra r = r /\
  RobertaLarge.pra ("encoder_" +:+ r) = r /\
  MsaTransformer.pra r = r /\
  MsaTransformer.pra ("encoder_" +:+ r) = r.
Proof.
  intros Hr. pose proof (encoder_free_underscore r Hr) as Hu.
  unfold RobertaLarge.pra, MsaTransformer.pra.
  repeat split; first [by apply strip_by_absent | by apply strip_by_leading].
Qed.

Lemma encoder_args_strip_leading_witness :
  contains "encoder" "embed_dim" = false /\
  RobertaLarge.pra ("encoder_" +:+ "embed_dim") = "embed_dim".
Proof.
  split; [reflexivity|].
  apply (encoder_args_strip_leading "embed_dim"). reflexivity.
Defined.

Lemma replace_absent old new s :
  contains old s = false -> replace old new s = s.
Proof.
  intros H. apply find_sep_None in H. unfold replace.
  destruct (String.length s); simpl; [done | by rewrite H].
Qed.

Lemma replace_skip_char old new c t :
  old <> "" -> strip_prefix old (String c t) = None ->
  replace old new (String c t) = String c (replace old new t).
Proof. intros Hold H. by rewrite replace_cons, H. Qed.

Lemma contains_skip_char sub c t :
  strip_prefix sub (String c t) = None ->
  contains sub (String c t) = contains sub t.
Proof. intros H. simpl. simpl in H. by rewrite H. Qed.

(** The swap, on a key with exactly one of the two words. *)
Lemma prs3_twice k :
  contains "row" k <> contains "column" k ->
  MsaTransformer.prs3 (MsaTransformer.prs3 k) = k.
Proof.
  unfold MsaTransformer.prs3.
  destruct (contains "row" k) eqn:Hrow, (contains "column" k) eqn:Hcol;
    try done; intros _.
  - rewrite (replace_clears "r" "ow" "c" "olumn") by done.
    by apply (replace_undo "row" "c" "olumn").
  - rewrite (replace_inserts "column" "row") by done.
    by apply (replace_undo "column" "r" "ow").
Qed.

(** What the swap leaves of the two words. *)
Lemma prs3_words s :
  (contains "row" s = true ->
   contains "row" (MsaTransformer.prs3 s) = false /\
   contains "column" (MsaTransformer.prs3 s) = true) /\
  (contains "row" s = false -> contains "column" s = true ->
   contains "row" (MsaTransformer.prs3 s) = true /\
   contains "column" (MsaTransformer.prs3 s) = false) /\
  (contains "row" s = false -> contains "column" s = false ->
   MsaTransformer.prs3 s = s).
Proof.
  unfold MsaTransformer.prs3. split; [|split].
  - intros H. rewrite H. split.
    + by apply (replace_clears "r" "ow" "c" "olumn").
    + by apply replace_inserts.
  - intros H Hc. rewrite H. split.
    + by apply replace_inserts.
    + by apply (replace_clears "c" "olumn" "r" "ow").
  - intros H Hc. rewrite H. by apply replace_absent.
Qed.

(** X4.  The swap of [msa_transformer] never returns a key with both
    ["row"] and ["column"] in it: a key with ["row"] comes back without any
    ["row"], and a key with ["column"] alone comes back without any
    ["column"].  Hence swapping three times is swapping once, for every
    key. *)
Theorem prs3_thrice (s : string) :
  (contains "row" (MsaTransformer.prs3 s) && contains "column" (MsaTransformer.prs3 s)
     = false) /\
  MsaTransformer.prs3 (MsaTransformer.prs3 (MsaTransformer.prs3 s))
    = MsaTransformer.prs3 s.
Proof.
  destruct (prs3_words s) as (Hr & Hc & Hn).
  destruct (contains "row" s) eqn:Hrow.
  - destruct (Hr eq_refl) as [H1 H2]. split; [by rewrite H1|].
    apply prs3_twice. by rewrite H1, H2.
  - destruct (contains "column" s) eqn:Hcol.
    + destruct (Hc eq_refl eq_refl) as [H1 H2]. split; [by rewrite H1, H2|].
      apply prs3_twice. by rewrite H1, H2.
    + rewrite !(Hn eq_refl eq_refl), Hrow. by split.
Qed.

(** X5.  A key of an [msa_transformer] checkpoint under
    ["encoder.sentence_encoder."] is rewritten to its remainder with the two
    words swapped, when no ["encoder"] is left in that. *)
Theorem msa_transformer_state_key_prefixed (r : string) :
  contains "encoder" (MsaTransformer.prs3 r) = false ->
  MsaTransformer.state_key ("encoder.sentence_encoder." +:+ r)
    = MsaTransformer.prs3 r /\
  MsaTransformer.state_key r = MsaTransformer.prs3 r.
Proof.
  intros Hr.
  pose proof (encoder_free_dot _ Hr) as Hd.
  pose proof (encoder_free_sentence _ Hr) as Hs.
  pose proof (encoder_free_sentence_dot _ Hr) as Hsd.
  assert (MsaTransformer.prs3 ("encoder.sentence_encoder." +:+ r)
          = "encoder.sentence_encoder." +:+ MsaTransformer.prs3 r) as Hswap.
  { unfold MsaTransformer.prs3.
    change ("encoder.sentence_encoder." +:+ r)
      with (String "e" ("ncoder.sentence_encoder." +:+ r)).
    cbn [String.append].
    rewrite !contains_skip_char by reflexivity.
    destruct (contains "row" r);
      rewrite !replace_skip_char by (done || reflexivity); reflexivity. }
  unfold MsaTransformer.state_key. rewrite Hswap. split.
  - unfold MsaTransformer.prs2.
    rewrite (strip_by_once _ _ _ "encoder." (MsaTransformer.prs3 r));
      [|done|done|done|done].
    by apply strip_by_absent.
  - unfold MsaTransformer.prs2. rewrite strip_by_absent by done.
    by apply strip_by_absent.
Qed.

Lemma msa_transformer_state_key_prefixed_witness :
  contains "encoder" (MsaTransformer.prs3 "layers.0.row_self_attention.k_proj.weight")
    = false /\
  MsaTransformer.state_key
    ("encoder.sentence_encoder." +:+ "layers.0.row_self_attention.k_proj.weight")
    = MsaTransformer.prs3 "layers.0.row_self_attention.k_proj.weight".
Proof.
  split; [reflexivity|].
  apply (msa_transformer_state_key_prefixed
           "layers.0.row_self_attention.k_proj.weight"). reflexivity.
Defined.

(** ** Dicts *)

Module PyDictFacts.
Import PyDict.
Section Facts.
Context {V : Type}.
Implicit Types (d : list (string * V)) (k : string) (v : V).

Lemma get_setitem k k' v d :
  get k (setitem k' v d) = if String.eqb k k' then Some v else get k d.
Proof.
  induction d as [|[k0 v0] d IH]; simpl.
  - done.
  - destruct (String.eqb_spec k' k0) as [->|Hne]; simpl.
    + by destruct (String.eqb_spec k k0).
    + rewrite IH. destruct (String.eqb_spec k k0) as [->|]; [|done].
      by destruct (String.eqb_spec k0 k') as [->|].
Qed.

Lemma get_None_keys k d : get k d = None <-> k ∉ d.*1.
Proof.
  induction d as [|[k0 v0] d IH]; simpl.
  - split; [intros _; apply not_elem_of_nil | done].
  - rewrite not_elem_of_cons.
    destruct (String.eqb_spec k k0) as [->|]; [|tauto].
    split; [done | tauto].
Qed.

(** The entries of [other] are written from first to last, so the last
    binding of a key is the one that stays. *)
Lemma get_fold_setitem (f : string -> string) k other d :
  get k (fold_left (fun acc kv => setitem (f kv.1) kv.2 acc) other d) =
    match get k (prod_map f id <$> reverse other) with
    | Some v => Some v
    | None => get k d
    end.
Proof.
  revert d. induction other as [|[k0 v0] other IH]; intros d; simpl; [done|].
  rewrite IH, reverse_cons, fmap_app. simpl.
  generalize (prod_map f id <$> reverse other). intros l.
  induction l as [|[k1 v1] l IHl]; simpl.
  - rewrite get_setitem. by destruct (String.eqb k (f k0)).
  - by destruct (String.eqb k k1).
Qed.

Lemma get_reverse_NoDup k d : NoDup d.*1 -> get k (reverse d) = get k d.
Proof.
  induction d as [|[k0 v0] d IH]; [done|].
  rewrite fmap_cons, NoDup_cons. intros [Hk0 Hd]. simpl.
  rewrite reverse_cons.
  assert (forall l1 l2 : list (string * V),
    get k (l1 ++ l2) = match get k l1 with Some v => Some v | None => get k l2 end)
    as Happ.
  { induction l1 as [|[k1 v1] l1 IH1]; intros l2; simpl; [done|].
    by destruct (String.eqb k k1). }
  rewrite Happ, (IH Hd). simpl.
  destruct (String.eqb_spec k k0) as [->|]; [|by destruct (get k d)].
  assert (get k0 d = None) as -> by (by apply get_None_keys). done.
Qed.

Lemma get_update k d other :
  NoDup other.*1 ->
  get k (update d other) =
    match get k other with Some v => Some v | None => get k d end.
Proof.
  intros Hnd. unfold update.
  rewrite (get_fold_setitem id).
  replace (prod_map id id <$> reverse other) with (reverse other).
  - by rewrite get_reverse_NoDup.
  - generalize (reverse other). intros l.
    induction l as [|[??] l IH]; [done|]. rewrite fmap_cons. by f_equal.
Qed.

End Facts.
End PyDictFacts.

(** ** More on dicts *)

Section MoreDictFacts.
Context {V : Type}.
Implicit Types (d o : list (string * V)) (k : string) (v : V).

Lemma setitem_fresh k v d :
  k ∉ d.*1 -> PyDict.setitem k v d = (d ++ [(k, v)])%list.
Proof.
  induction d as [|[k0 v0] d IH]; [done|].
  rewrite fmap_cons, not_elem_of_cons. intros [Hne Hd]. simpl.
  destruct (String.eqb_spec k k0) as [->|]; [done|]. by rewrite (IH Hd).
Qed.

Lemma setitem_keys_present k v d :
  k ∈ d.*1 -> (PyDict.setitem k v d).*1 = d.*1.
Proof.
  induction d as [|[k0 v0] d IH]; [by intros ?%elem_of_nil|].
  rewrite fmap_cons, elem_of_cons. intros Hin. simpl.
  destruct (String.eqb_spec k k0) as [->|Hne]; [done|].
  rewrite fmap_cons. f_equal. apply IH. by destruct Hin.
Qed.

Lemma setitem_keys k v d :
  (PyDict.setitem k v d).*1 =
    if decide (k ∈ d.*1) then d.*1 else (d.*1 ++ [k])%list.
Proof.
  destruct (decide (k ∈ d.*1)) as [Hin|Hout].
  - by apply setitem_keys_present.
  - rewrite setitem_fresh by done. by rewrite fmap_app.
Qed.

Lemma setitem_NoDup k v d : NoDup d.*1 -> NoDup (PyDict.setitem k v d).*1.
Proof.
  intros Hd. rewrite setitem_keys. destruct (decide (k ∈ d.*1)); [done|].
  apply NoDup_app. split; [done|]. split; [|apply NoDup_singleton].
  intros x Hx ->%list_elem_of_singleton. done.
Qed.

Lemma setitem_same k v d : PyDict.get k d = Some v -> PyDict.setitem k v d = d.
Proof.
  induction d as [|[k0 v0] d IH]; [done|]. simpl.
  destruct (String.eqb_spec k k0) as [->|]; [by intros [= ->]|].
  intros H. by rewrite (IH H).
Qed.

Lemma fold_setitem_NoDup (f : string -> string) o d :
  NoDup d.*1 ->
  NoDup (fold_left (fun acc kv => PyDict.setitem (f kv.1) kv.2 acc) o d).*1.
Proof.
  revert d. induction o as [|[k v] o IH]; intros d Hd; [done|].
  simpl. apply IH. by apply setitem_NoDup.
Qed.

Lemma fold_setitem_keys (f : string -> string) o d :
  PyDict.keys (fold_left (fun acc kv => PyDict.setitem (f kv.1) kv.2 acc) o d)
    = PyDict.keys d ∪ list_to_set (f <$> o.*1).
Proof.
  unfold PyDict.keys. revert d.
  induction o as [|[k v] o IH]; intros d; simpl.
  - by rewrite union_empty_r_L.
  - rewrite IH, setitem_keys. destruct (decide (f k ∈ d.*1)) as [Hin|Hout].
    + apply set_eq. intros x. rewrite !elem_of_union, elem_of_singleton,
        !elem_of_list_to_set. split; [tauto|]. intros [?|[->|?]]; tauto.
    + rewrite list_to_set_app_L. simpl. rewrite union_empty_r_L.
      by rewrite (assoc_L (∪)).
Qed.

Lemma fold_setitem_prefix (f : string -> string) o d :
  d.*1 `prefix_of`
    (fold_left (fun acc kv => PyDict.setitem (f kv.1) kv.2 acc) o d).*1.
Proof.
  revert d. induction o as [|[k v] o IH]; intros d; [done|].
  simpl. etrans; [|apply IH]. rewrite setitem_keys.
  destruct (decide (f k ∈ d.*1)); [done | by apply prefix_app_r].
Qed.

Lemma get_app k (l1 l2 : list (string * V)) :
  PyDict.get k (l1 ++ l2) =
    match PyDict.get k l1 with Some v => Some v | None => PyDict.get k l2 end.
Proof.
  induction l1 as [|[k1 v1] l1 IH]; simpl; [done|].
  by destruct (String.eqb k k1).
Qed.

Lemma get_rekey (f : string -> string) k d :
  PyDict.get k (PyDict.rekey f d) = PyDict.get k (prod_map f id <$> reverse d).
Proof.
  unfold PyDict.rekey. rewrite PyDictFacts.get_fold_setitem.
  by destruct (PyDict.get k _).
Qed.

(** X6.  When two keys of a dict are rewritten to the same name, the
    dict comprehension keeps the value of the later one: an entry is found
    under its new name as long as no entry after it takes that name. *)
Theorem rekey_keeps_last (f : string -> string) d1 k0 v0 d2 :
  (forall k, k ∈ d2.*1 -> f k <> f k0) ->
  PyDict.get (f k0) (PyDict.rekey f (d1 ++ (k0, v0) :: d2)) = Some v0.
Proof.
  intros Hlater. rewrite get_rekey, reverse_app, reverse_cons, !fmap_app.
  rewrite !get_app.
  assert (PyDict.get (f k0) (prod_map f id <$> reverse d2) = None) as ->.
  { apply PyDictFacts.get_None_keys. rewrite <- list_fmap_compose.
    intros (kv & Heq & Hin)%list_elem_of_fmap. simpl in Heq.
    apply (Hlater kv.1); [|done].
    apply list_elem_of_fmap. exists kv. split; [done|].
    by apply elem_of_reverse. }
  simpl. by rewrite String.eqb_refl.
Qed.

Lemma rekey_key_set (f : string -> string) d :
  PyDict.keys (PyDict.rekey f d) = list_to_set (f <$> d.*1).
Proof.
  unfold PyDict.rekey. rewrite fold_setitem_keys. unfold PyDict.keys. simpl.
  by rewrite union_empty_l_L.
Qed.

Lemma update_key_set d o :
  PyDict.keys (PyDict.update d o) = PyDict.keys d ∪ PyDict.keys o.
Proof.
  unfold PyDict.update. rewrite (fold_setitem_keys id). unfold PyDict.keys.
  by rewrite list_fmap_id.
Qed.

(** X7.  The keys of a rewritten dict are the rewritten keys of the dict,
    each of them once. *)
Theorem rekey_keys (f : string -> string) d :
  PyDict.keys (PyDict.rekey f d) = list_to_set (f <$> d.*1) /\
  NoDup (PyDict.rekey f d).*1.
Proof.
  split; [apply rekey_key_set|].
  unfold PyDict.rekey. apply fold_setitem_NoDup. constructor.
Qed.

Lemma fold_setitem_fresh (f : string -> string) o d :
  NoDup (d.*1 ++ (f <$> o.*1)) ->
  fold_left (fun acc kv => PyDict.setitem (f kv.1) kv.2 acc) o d
    = (d ++ (prod_map f id <$> o))%list.
Proof.
  revert d. induction o as [|[k v] o IH]; intros d Hnd; simpl.
  - by rewrite app_nil_r.
  - rewrite !fmap_cons in Hnd. simpl in Hnd.
    assert (f k ∉ d.*1) as Hout.
    { apply NoDup_app in Hnd as (_ & Hdisj & _). intros Hin.
      apply (Hdisj _ Hin). by left. }
    rewrite setitem_fresh by done. rewrite IH.
    + by rewrite <- app_assoc.
    + rewrite fmap_app. simpl. by rewrite <- app_assoc.
Qed.

(** X8.  When no two keys of a dict are rewritten to the same name, the
    dict comprehension keeps every entry, in the order of the dict, under
    its new name. *)
Theorem rekey_without_collision (f : string -> string) d :
  NoDup (f <$> d.*1) ->
  PyDict.rekey f d = prod_map f id <$> d.
Proof. intros Hnd. unfold PyDict.rekey. by rewrite fold_setitem_fresh. Qed.

(** X9.  [update] keeps the keys of the dict where they stand and puts the
    new ones behind them; its keys are those of both dicts, and a dict with
    one entry per key stays one. *)
Theorem update_keys d o :
  d.*1 `prefix_of` (PyDict.update d o).*1 /\
  PyDict.keys (PyDict.update d o) = PyDict.keys d ∪ PyDict.keys o /\
  (NoDup d.*1 -> NoDup (PyDict.update d o).*1).
Proof.
  unfold PyDict.update. split; [|split].
  - apply (fold_setitem_prefix id).
  - apply update_key_set.
  - apply (fold_setitem_NoDup id).
Qed.

Lemma update_twice d o :
  NoDup o.*1 ->
  PyDict.update (PyDict.update d o) o = PyDict.update d o.
Proof.
  revert d. induction o as [|[k v] o IH]; intros d Hnd; [done|].
  rewrite fmap_cons, NoDup_cons in Hnd. destruct Hnd as [Hk Ho].
  unfold PyDict.update in *. simpl.
  set (d1 := PyDict.setitem k v d).
  set (step := fun (acc : list (string * V)) (kv : string * V) =>
                 PyDict.setitem kv.1 kv.2 acc) in *.
  assert (PyDict.get k (fold_left step o d1) = Some v) as Hget.
  { pose proof (PyDictFacts.get_fold_setitem id k o d1) as Hg.
    simpl in Hg. unfold step. rewrite Hg.
    assert (PyDict.get k (prod_map id id <$> reverse o) = None) as ->.
    { apply PyDictFacts.get_None_keys. rewrite <- list_fmap_compose.
      intros (kv & Heq & Hin)%list_elem_of_fmap. simpl in Heq. subst k.
      apply Hk. apply list_elem_of_fmap. exists kv. split; [done|].
      by apply elem_of_reverse. }
    unfold d1. by rewrite PyDictFacts.get_setitem, String.eqb_refl. }
  rewrite (setitem_same _ _ _ Hget). by apply IH.
Qed.

(** X10.  Updating a second time with the same dict changes nothing: its
    keys are all there by then, with its values. *)
Theorem update_idempotent d o :
  NoDup o.*1 ->
  PyDict.update (PyDict.update d o) o = PyDict.update d o /\
  forall k v, PyDict.get k o = Some v ->
    PyDict.get k (PyDict.update d o) = Some v.
Proof.
  intros Hnd. split; [by apply update_twice|].
  intros k v Hk. by rewrite PyDictFacts.get_update, Hk.
Qed.

End MoreDictFacts.

(** ** The loader *)

Section LoaderFacts.
Context {scalar : Type} (zero : scalar).
Context {Alphabet Model : Type}.
Context (from_architecture : pyval -> string -> string + Alphabet).
Context (mask_idx : Alphabet -> Z).
Context (construct :
  model_type -> list (string * pyval) -> Alphabet -> string + Model).
Context (state_dict_keys : Model -> list string).
Context (load_state_dict :
  Model -> list (string * tensor (scalar:=scalar)) -> bool -> string + Model).

Abbreviation build := (build_model zero from_architecture mask_idx construct).
Abbreviation finish := (finish_load state_dict_keys load_state_dict).
Abbreviation load :=
  (load_model_and_alphabet_core zero from_architecture mask_idx construct
     state_dict_keys load_state_dict).
Abbreviation upgrade := (upgrade_state_dict zero mask_idx).

Lemma merge_regression_run (w : world (scalar:=scalar)) :
  merge_regression w = (inr tt, merged w).
Proof.
  unfold merge_regression, merged, mbind, M_bind, get_world, modify. simpl.
  by destruct (regression_data w).
Qed.

Lemma merged_args (w : world (scalar:=scalar)) :
  ck_args (model_data (merged w)) = ck_args (model_data w).
Proof. unfold merged. by destruct (regression_data w). Qed.

Lemma merged_regression_data (w : world (scalar:=scalar)) :
  regression_data (merged w) = regression_data w.
Proof. unfold merged. by destruct (regression_data w) eqn:E. Qed.

Lemma merged_tensors (w : world (scalar:=scalar)) :
  tensors (merged w) = tensors w.
Proof. unfold merged. by destruct (regression_data w). Qed.

Lemma merged_warnings (w : world (scalar:=scalar)) :
  warnings (merged w) = warnings w.
Proof. unfold merged. by destruct (regression_data w). Qed.

(** [build_model] step by step. *)
Lemma build_model_run theme (w : world (scalar:=scalar)) :
  build theme w =
    match PyDict.get "arch" (ck_args (model_data w)) with
    | None => (inl (AttributeError "arch"), merged w)
    | Some arch =>
        match from_architecture arch theme with
        | inl what => (inl (CollaboratorError what), merged w)
        | inr alphabet =>
            match upgrade arch alphabet (merged w) with
            | (inl e, w2) => (inl e, w2)
            | (inr (model_args, model_state, mtype), w2) =>
                match construct mtype model_args alphabet with
                | inl what => (inl (CollaboratorError what), w2)
                | inr model => (inr (model, model_state, mtype, alphabet), w2)
                end
            end
        end
    end.
Proof.
  unfold build_model. unfold mbind at 1. unfold M_bind at 1.
  rewrite merge_regression_run.
  unfold mbind at 1. unfold M_bind at 1.
  unfold get_arch, mbind at 1. unfold M_bind at 1. unfold get_world.
  rewrite merged_args.
  destruct (PyDict.get "arch" _) as [arch|]; [|done].
  unfold mret at 1. unfold M_ret at 1.
  unfold mbind at 1. unfold M_bind at 1.
  destruct (from_architecture arch theme) as [what|alphabet]; [done|].
  unfold call at 1. unfold mret at 1. unfold M_ret at 1.
  unfold mbind at 1. unfold M_bind at 1.
  destruct (upgrade arch alphabet (merged w)) as [[e|[[margs mstate] mtype]] w2]; [done|].
  unfold mbind at 1. unfold M_bind at 1.
  by destruct (construct mtype margs alphabet).
Qed.

Lemma zero_mask_row_run model_state alphabet (w : world (scalar:=scalar)) :
  zero_mask_row zero mask_idx model_state alphabet w =
    match PyDict.get "embed_tokens.weight" model_state with
    | None => (inl (KeyError "embed_tokens.weight"), w)
    | Some l =>
        if negb (fits_int64 (mask_idx alphabet)) then (inl IndexOverflow, w)
        else
          match zero_row zero (mask_idx alphabet) (tensors w l) with
          | None => (inl IndexError, w)
          | Some t =>
              if inplace_refused w l then (inl InplaceRefused, w)
              else (inr tt, with_tensor l t w)
          end
    end.
Proof.
  unfold zero_mask_row. destruct (PyDict.get _ model_state) as [l|]; [|done].
  unfold mbind, M_bind, get_world.
  destruct (negb _); [done|].
  destruct (zero_row zero (mask_idx alphabet) (tensors w l)); [|done].
  by destruct (inplace_refused w l).
Qed.

(** The mask-row step either fails and leaves the world as it is, or
    zeroes the row of a tensor that may be written in place. *)
Lemma zero_mask_row_cases model_state alphabet (w : world (scalar:=scalar)) :
  (exists e, zero_mask_row zero mask_idx model_state alphabet w = (inl e, w) /\
             forall cls msgs, e <> RuntimeError cls msgs) \/
  (exists l t,
     PyDict.get "embed_tokens.weight" model_state = Some l /\
     fits_int64 (mask_idx alphabet) = true /\
     zero_row zero (mask_idx alphabet) (tensors w l) = Some t /\
     inplace_refused w l = false /\
     zero_mask_row zero mask_idx model_state alphabet w
       = (inr tt, with_tensor l t w)).
Proof.
  rewrite zero_mask_row_run.
  destruct (PyDict.get _ model_state) as [l|]; [|left; by eexists].
  destruct (fits_int64 _) eqn:Hfit; simpl; [|left; by eexists].
  destruct (zero_row _ _ _) as [t|] eqn:Ht; [|left; by eexists].
  destruct (inplace_refused w l) eqn:Hg; [left; by eexists|].
  right. by exists l, t.
Qed.

Lemma upgrade_run arch alphabet (w : world (scalar:=scalar)) :
  upgrade arch alphabet w =
    let args := ck_args (model_data w) in
    let model := ck_model (model_data w) in
    if is_str arch "roberta_large" then
      let model_state := PyDict.rekey RobertaLarge.state_key model in
      match zero_mask_row zero mask_idx model_state alphabet w with
      | (inl e, w') => (inl e, w')
      | (inr _, w') =>
          (inr (PyDict.rekey RobertaLarge.pra args, model_state, ProteinBertModel), w')
      end
    else if is_str arch "protein_bert_base" then
      (inr (PyDict.rekey ProteinBertBase.pra args,
            PyDict.rekey ProteinBertBase.state_key model, ProteinBertModel), w)
    else if is_str arch "msa_transformer" then
      (inr (PyDict.rekey MsaTransformer.pra args,
            PyDict.rekey MsaTransformer.state_key model, MSATransformer), w)
    else (inl (ValueError "Unknown architecture selected"), w).
Proof.
  unfold upgrade_state_dict. unfold mbind at 1. unfold M_bind at 1.
  unfold get_world. cbv zeta.
  destruct (is_str arch "roberta_large").
  { unfold mbind, M_bind.
    by destruct (zero_mask_row _ _ _ _ w) as [[e|[]] w']. }
  destruct (is_str arch "protein_bert_base"); [done|].
  by destruct (is_str arch "msa_transformer").
Qed.

Abbreviation assigned := (assign load_state_dict).

Lemma assign_run model (model_state : list (string * loc))
    (alphabet : Alphabet) strict
    (w : world (scalar:=scalar)) :
  assigned model model_state alphabet strict w =
    (match load_state_dict model (deref w model_state) strict with
     | inl what => inl (CollaboratorError what)
     | inr model' => inr (model', alphabet)
     end, w).
Proof.
  unfold assign, mbind, M_bind, get_world, call, mret, M_ret, raise.
  by destruct (load_state_dict _ _ _).
Qed.

Lemma finish_load_run model model_state mtype (alphabet : Alphabet)
    (w : world (scalar:=scalar)) :
  finish model model_state mtype alphabet w =
    match regression_data w with
    | Some _ => assigned model model_state alphabet true w
    | None =>
        match check_keys (class_name mtype) (list_to_set (state_dict_keys model))
                (PyDict.keys model_state) w with
        | (inl e, w') => (inl e, w')
        | (inr _, w') => assigned model model_state alphabet false w'
        end
    end.
Proof.
  unfold finish_load. unfold mbind at 1. unfold M_bind at 1.
  unfold get_world at 1. unfold mbind at 1. unfold M_bind at 1.
  destruct (regression_data w) as [reg|] eqn:Hreg; [done|].
  by destruct (check_keys _ _ _ w) as [[e|[]] w'].
Qed.

Lemma load_run theme (w : world (scalar:=scalar)) :
  load theme w =
    match build theme w with
    | (inl e, w') => (inl e, w')
    | (inr (model, model_state, mtype, alphabet), w') =>
        finish model model_state mtype alphabet w'
    end.
Proof.
  unfold load_model_and_alphabet_core, mbind, M_bind.
  by destruct (build theme w) as [[e|[[[??]?]?]] w'].
Qed.


(** *** The key check *)

Lemma truthy_true (s : gset string) : truthy s = true <-> s ≠ ∅.
Proof. unfold truthy. by rewrite bool_decide_eq_true. Qed.

Lemma truthy_false (s : gset string) : truthy s = false <-> s = ∅.
Proof.
  unfold truthy. rewrite bool_decide_eq_false.
  split; [|by intros ->; auto]. intros H. by destruct (decide (s = ∅)).
Qed.

Lemma check_keys_error cls expected found (w : world (scalar:=scalar)) :
  (expected ∖ found) ∖ expected_missing ≠ ∅ \/ found ∖ expected ≠ ∅ ->
  exists msgs,
    check_keys cls expected found w = (inl (RuntimeError cls msgs), w) /\
    reported_missing msgs = (expected ∖ found) ∖ expected_missing /\
    reported_unexpected msgs = found ∖ expected.
Proof.
  intros H. unfold check_keys. cbv zeta.
  destruct (truthy (expected ∖ found ∖ expected_missing)) eqn:Hm;
    destruct (truthy (found ∖ expected)) eqn:Hu; simpl.
  - eexists. split; [done|]. simpl. by rewrite !union_empty_r_L.
  - apply truthy_false in Hu.
    eexists. split; [done|]. simpl. by rewrite union_empty_r_L, Hu.
  - apply truthy_false in Hm.
    eexists. split; [done|]. simpl. by rewrite union_empty_r_L, Hm.
  - apply truthy_false in Hm, Hu. by destruct H.
Qed.

Lemma check_keys_pass cls expected found (w : world (scalar:=scalar)) :
  (expected ∖ found) ∖ expected_missing = ∅ -> found ∖ expected = ∅ ->
  check_keys cls expected found w =
    (inr tt,
     if truthy (expected_missing ∖ found)
     then with_warning regression_warning w else w).
Proof.
  intros Hm Hu. unfold check_keys. cbv zeta.
  apply truthy_false in Hm, Hu. rewrite Hm, Hu. simpl.
  by destruct (truthy (expected_missing ∖ found)).
Qed.

Lemma check_keys_cases cls expected found (w : world (scalar:=scalar)) :
  (exists msgs, check_keys cls expected found w = (inl (RuntimeError cls msgs), w)) \/
  check_keys cls expected found w =
    (inr tt,
     if truthy (expected_missing ∖ found)
     then with_warning regression_warning w else w).
Proof.
  destruct (decide ((expected ∖ found) ∖ expected_missing = ∅)) as [Hm|Hm];
    [destruct (decide (found ∖ expected = ∅)) as [Hu|Hu]|].
  - right. by apply check_keys_pass.
  - left. destruct (check_keys_error cls expected found w) as (msgs & ? & _); eauto.
  - left. destruct (check_keys_error cls expected found w) as (msgs & ? & _); eauto.
Qed.

(** *** What each step leaves alone *)

Lemma upgrade_frame arch alphabet (w : world (scalar:=scalar)) :
  model_data (upgrade arch alphabet w).2 = model_data w /\
  regression_data (upgrade arch alphabet w).2 = regression_data w /\
  warnings (upgrade arch alphabet w).2 = warnings w.
Proof.
  rewrite upgrade_run. cbv zeta.
  destruct (is_str arch "roberta_large").
  { by destruct (zero_mask_row_cases
      (PyDict.rekey RobertaLarge.state_key (ck_model (model_data w))) alphabet w)
      as [(e & -> & _) | (l & t & _ & _ & _ & _ & ->)]. }
  destruct (is_str arch "protein_bert_base"); [done|].
  by destruct (is_str arch "msa_transformer").
Qed.

(** The loader never changes which tensors may be written in place. *)
Lemma upgrade_inplace_refused arch alphabet (w : world (scalar:=scalar)) :
  inplace_refused (upgrade arch alphabet w).2 = inplace_refused w.
Proof.
  rewrite upgrade_run. cbv zeta.
  destruct (is_str arch "roberta_large").
  { by destruct (zero_mask_row_cases
      (PyDict.rekey RobertaLarge.state_key (ck_model (model_data w))) alphabet w)
      as [(e & -> & _) | (l & t & _ & _ & _ & _ & ->)]. }
  destruct (is_str arch "protein_bert_base"); [done|].
  by destruct (is_str arch "msa_transformer").
Qed.

Lemma build_frame theme (w : world (scalar:=scalar)) :
  model_data (build theme w).2 = model_data (merged w) /\
  regression_data (build theme w).2 = regression_data w /\
  warnings (build theme w).2 = warnings w.
Proof.
  rewrite build_model_run.
  rewrite <- (merged_regression_data w), <- (merged_warnings w).
  destruct (PyDict.get "arch" _) as [arch|]; [|done].
  destruct (from_architecture arch theme) as [what|alphabet]; [done|].
  pose proof (upgrade_frame arch alphabet (merged w)) as Hf.
  destruct (upgrade arch alphabet (merged w)) as [[e|[[margs mstate] mtype]] w2];
    [done|].
  by destruct (construct mtype margs alphabet).
Qed.

Lemma finish_frame model model_state mtype (alphabet : Alphabet)
    (w : world (scalar:=scalar)) :
  model_data (finish model model_state mtype alphabet w).2 = model_data w /\
  regression_data (finish model model_state mtype alphabet w).2 = regression_data w /\
  tensors (finish model model_state mtype alphabet w).2 = tensors w.
Proof.
  rewrite finish_load_run.
  destruct (regression_data w) eqn:Hreg; [by rewrite assign_run|].
  destruct (check_keys_cases (class_name mtype)
    (list_to_set (state_dict_keys model)) (PyDict.keys model_state) w)
    as [[msgs ->] | ->]; [done|].
  rewrite assign_run. simpl.
  by destruct (truthy _).
Qed.

(** The loader writes to the dict of the checkpoint only in the merge,
    and never to the regression data. *)
Lemma load_frame theme (w : world (scalar:=scalar)) :
  model_data (load theme w).2 = model_data (merged w) /\
  regression_data (load theme w).2 = regression_data w.
Proof.
  rewrite load_run.
  pose proof (build_frame theme w) as (Hm & Hr & _).
  destruct (build theme w) as [[e|[[[model mstate] mtype] alphabet]] w1]; [done|].
  pose proof (finish_frame model mstate mtype alphabet w1) as (Hm' & Hr' & _).
  simpl in *. by rewrite Hm', Hr', Hm, Hr.
Qed.


(** *** The theorems on the loader *)

(** C10.  For [roberta_large], when the rewritten state dict has no key
    ["embed_tokens.weight"], the load raises the [KeyError] of the lookup
    in the mask-row step.  The model is not built and no key is compared:
    the result is the same whatever the model expects. *)
Theorem missing_embed_tokens_key_error theme (w : world (scalar:=scalar))
    arch alphabet :
  PyDict.get "arch" (ck_args (model_data w)) = Some arch ->
  is_str arch "roberta_large" = true ->
  from_architecture arch theme = inr alphabet ->
  PyDict.get "embed_tokens.weight"
    (PyDict.rekey RobertaLarge.state_key (ck_model (model_data (merged w)))) = None ->
  load theme w = (inl (KeyError "embed_tokens.weight"), merged w).
Proof.
  intros Harch Hrob Halpha Hkey.
  rewrite load_run, build_model_run, Harch, Halpha, upgrade_run, Hrob.
  cbv zeta. by rewrite zero_mask_row_run, Hkey.
Qed.

(** C3, as the code has it.  With an architecture that is none of the three,
    the load fails, with ["Unknown architecture selected"] or with what the
    alphabet raised for that architecture, and leaves the world as the
    merge made it: no tensor is written and no warning issued, but the
    dict of the checkpoint holds the regression entries when there are
    any. *)
Theorem unknown_architecture_after_merge theme (w : world (scalar:=scalar)) arch :
  PyDict.get "arch" (ck_args (model_data w)) = Some arch ->
  is_str arch "roberta_large" = false ->
  is_str arch "protein_bert_base" = false ->
  is_str arch "msa_transformer" = false ->
  (exists e, load theme w = (inl e, merged w) /\
     (e = ValueError "Unknown architecture selected" \/
      exists what, from_architecture arch theme = inl what /\
                   e = CollaboratorError what)) /\
  tensors (merged w) = tensors w /\
  warnings (merged w) = warnings w /\
  ck_model (model_data (merged w)) =
    match regression_data w with
    | Some reg => PyDict.update (ck_model (model_data w)) (ck_model reg)
    | None => ck_model (model_data w)
    end.
Proof.
  intros Harch Ha Hb Hc. split; [|split; [|split]].
  - rewrite load_run, build_model_run, Harch.
    destruct (from_architecture arch theme) as [what|alphabet] eqn:Halpha.
    + eexists. split; [done|]. right. by exists what.
    + rewrite upgrade_run, Ha, Hb, Hc. cbv zeta.
      eexists. split; [done|]. by left.
  - apply merged_tensors.
  - apply merged_warnings.
  - unfold merged. by destruct (regression_data w).
Qed.

(** C6, as the code has it.  With regression data the merge writes into the
    dict of the checkpoint itself: after the load that dict is the original
    one updated with the regression entries.  The arguments of the
    checkpoint and the regression data are as before. *)
Theorem merge_in_place theme (w : world (scalar:=scalar)) reg :
  regression_data w = Some reg ->
  ck_model (model_data (load theme w).2) =
    PyDict.update (ck_model (model_data w)) (ck_model reg) /\
  ck_args (model_data (load theme w).2) = ck_args (model_data w) /\
  regression_data (load theme w).2 = Some reg.
Proof.
  intros Hreg. destruct (load_frame theme w) as [-> ->].
  rewrite merged_args. unfold merged. by rewrite Hreg.
Qed.

(** C7.  The merge always returns, and its dict maps a key to the
    regression tensor when the regression data has the key and to the
    tensor of the checkpoint otherwise, on the names as they are before
    any rewrite; the arguments stay those of the checkpoint, and without
    regression data nothing changes.  [{"a":1,"b":2}] updated with
    [{"b":9,"c":3}] is [{"a":1,"b":9,"c":3}]. *)
Theorem merge_overlays (w : world (scalar:=scalar)) :
  (forall reg, regression_data w = Some reg -> NoDup (ck_model reg).*1) ->
  merge_regression w = (inr tt, merged w) /\
  ck_args (model_data (merged w)) = ck_args (model_data w) /\
  (forall reg, regression_data w = Some reg ->
     forall k, PyDict.get k (ck_model (model_data (merged w))) =
       match PyDict.get k (ck_model reg) with
       | Some v => Some v
       | None => PyDict.get k (ck_model (model_data w))
       end) /\
  (regression_data w = None -> merged w = w) /\
  PyDict.update [("a", 1); ("b", 2)] [("b", 9); ("c", 3)] =
    [("a", 1); ("b", 9); ("c", 3)].
Proof.
  intros Hwf. split; [apply merge_regression_run|].
  split; [apply merged_args|]. split; [|split; [|done]].
  - intros reg Hreg k. unfold merged. rewrite Hreg. simpl.
    apply PyDictFacts.get_update. by apply Hwf.
  - unfold merged. by intros ->.
Qed.

Lemma zero_row_spec i (t t' : tensor (scalar:=scalar)) :
  zero_row zero i t = Some t' ->
  exists j row,
    row_index (length t) i = Some j /\
    t !! j = Some row /\
    t' = <[ j := replicate (length row) zero ]> t.
Proof.
  unfold zero_row. destruct (row_index (length t) i) as [j|] eqn:Hj; [|done].
  intros [= <-]. exists j.
  assert (j < length t) as Hlt.
  { unfold row_index in Hj.
    destruct (_ && _) eqn:E1 in Hj.
    - injection Hj as <-. apply andb_true_iff in E1 as [? ?]. lia.
    - destruct (_ && _) eqn:E2 in Hj; [|done].
      injection Hj as <-. apply andb_true_iff in E2 as [? ?]. lia. }
  destruct (lookup_lt_is_Some_2 t j Hlt) as [row Hrow].
  exists row. split; [done|]. split; [done|].
  unfold tensor in *.
  apply list_eq. intros n. destruct (decide (n = j)) as [->|Hne].
  - rewrite list_lookup_alter_eq, list_lookup_insert_eq, Hrow by done. simpl.
    f_equal. clear. induction row; simpl; by f_equal.
  - by rewrite list_lookup_alter_ne, list_lookup_insert_ne.
Qed.


Lemma merged_inplace_refused (w : world (scalar:=scalar)) :
  inplace_refused (merged w) = inplace_refused w.
Proof. unfold merged. by destruct (regression_data w). Qed.

Lemma fits_int64_true i : (- 2 ^ 63 <= i < 2 ^ 63)%Z -> fits_int64 i = true.
Proof.
  intros [H1 H2]. unfold fits_int64.
  apply andb_true_iff. split; [by apply Z.leb_le | by apply Z.ltb_lt].
Qed.






(** C1.  Without regression data, once the model is built: let [missing]
    be the expected keys that were not found, less the two regression
    keys, and [unexpected] the found keys that were not expected.  When
    one of them is not empty the load raises the [RuntimeError] of the key
    check, whose message gives both sets; when both are empty it raises
    no such error.  With ["x"], ["y"] and the two regression keys expected
    and only ["x"] found, the error reports ["y"] missing. *)
Theorem key_check_without_regression theme (w : world (scalar:=scalar))
    model model_state mtype alphabet w1 :
  regression_data w = None ->
  build theme w = (inr (model, model_state, mtype, alphabet), w1) ->
  let expected : gset string := list_to_set (state_dict_keys model) in
  let found := PyDict.keys model_state in
  let missing := (expected ∖ found) ∖ expected_missing in
  let unexpected := found ∖ expected in
  (missing ≠ ∅ \/ unexpected ≠ ∅ ->
   exists msgs,
     load theme w = (inl (RuntimeError (class_name mtype) msgs), w1) /\
     reported_missing msgs = missing /\
     reported_unexpected msgs = unexpected) /\
  (missing = ∅ -> unexpected = ∅ ->
   forall cls msgs, (load theme w).1 <> inl (RuntimeError cls msgs)) /\
  (forall cls (w0 : world (scalar:=scalar)),
     check_keys cls
       {[ "x"; "y"; "contact_head.regression.weight"; "contact_head.regression.bias" ]}
       {[ "x" ]} w0
     = (inl (RuntimeError cls [MissingKeys {[ "y" ]}]), w0)).
Proof.
  intros Hreg Hbuild expected found missing unexpected.
  subst missing unexpected found expected.
  assert (regression_data w1 = None) as Hreg1.
  { destruct (build_frame theme w) as (_ & Hr & _).
    rewrite Hbuild in Hr. simpl in Hr. by rewrite Hr. }
  split; [|split].
  - intros Hne.
    destruct (check_keys_error (class_name mtype) _ _ w1 Hne)
      as (msgs & Hck & Hm & Hu).
    exists msgs. split; [|done].
    by rewrite load_run, Hbuild, finish_load_run, Hreg1, Hck.
  - intros Hm Hu cls msgs.
    rewrite load_run, Hbuild, finish_load_run, Hreg1.
    rewrite (check_keys_pass _ _ _ w1 Hm Hu), assign_run. simpl.
    by destruct (load_state_dict _ _ _).
  - intros cls w0. by vm_compute.
Qed.

(** C2, as the code has it.  Without regression data, once the model is
    built and the key check has nothing to report: the load issues the
    regression warning exactly when one of the two regression keys was
    not found, and no warning otherwise.  With ["x"], ["y"] and the two
    regression keys expected and ["x"], ["y"] found, the check passes
    with the warning. *)
Theorem regression_warning_condition theme (w : world (scalar:=scalar))
    model model_state mtype alphabet w1 :
  regression_data w = None ->
  build theme w = (inr (model, model_state, mtype, alphabet), w1) ->
  let expected : gset string := list_to_set (state_dict_keys model) in
  let found := PyDict.keys model_state in
  (expected ∖ found) ∖ expected_missing = ∅ ->
  found ∖ expected = ∅ ->
  (expected_missing ∖ found ≠ ∅ ->
   warnings (load theme w).2 = (warnings w ++ [regression_warning])%list) /\
  (expected_missing ∖ found = ∅ -> warnings (load theme w).2 = warnings w) /\
  (forall cls (w0 : world (scalar:=scalar)),
     check_keys cls
       {[ "x"; "y"; "contact_head.regression.weight"; "contact_head.regression.bias" ]}
       {[ "x"; "y" ]} w0
     = (inr tt, with_warning regression_warning w0)).
Proof.
  intros Hreg Hbuild expected found Hm Hu. subst found expected.
  destruct (build_frame theme w) as (_ & Hr & Hw).
  rewrite Hbuild in Hr, Hw. simpl in Hr, Hw.
  assert (load theme w =
    assigned model model_state alphabet false
      (if truthy (expected_missing ∖ PyDict.keys model_state)
       then with_warning regression_warning w1 else w1)) as ->.
  { rewrite load_run, Hbuild, finish_load_run, Hr, Hreg.
    by rewrite (check_keys_pass _ _ _ w1 Hm Hu). }
  rewrite assign_run. simpl. split; [|split].
  - intros ->%truthy_true. simpl. by rewrite Hw.
  - intros ->%truthy_false. by rewrite Hw.
  - intros cls w0. by vm_compute.
Qed.

(** C4, as the code has it.  With regression data, once the model is built,
    the load is the strict assignment and nothing else: the loader compares
    no keys and issues no warning of its own, and a state dict with keys
    the model does not expect is turned down, if at all, by the
    assignment. *)
Theorem key_check_skipped_with_regression theme (w : world (scalar:=scalar))
    reg model model_state mtype alphabet w1 :
  regression_data w = Some reg ->
  build theme w = (inr (model, model_state, mtype, alphabet), w1) ->
  load theme w =
    (match load_state_dict model (deref w1 model_state) true with
     | inl what => inl (CollaboratorError what)
     | inr model' => inr (model', alphabet)
     end, w1) /\
  warnings w1 = warnings w.
Proof.
  intros Hreg Hbuild.
  destruct (build_frame theme w) as (_ & Hr & Hw).
  rewrite Hbuild in Hr, Hw. simpl in Hr, Hw. split; [|done].
  by rewrite load_run, Hbuild, finish_load_run, Hr, Hreg, assign_run.
Qed.

(** *** More on the mask row *)

Lemma row_index_None n i :
  (i < - Z.of_nat n \/ Z.of_nat n <= i)%Z -> row_index n i = None.
Proof.
  intros H. unfold row_index.
  destruct (Z.leb_spec 0 i), (Z.ltb_spec i (Z.of_nat n)),
    (Z.leb_spec (- Z.of_nat n) i), (Z.ltb_spec i 0); simpl; try done; lia.
Qed.

Lemma zero_row_facts i (t t' : tensor (scalar:=scalar)) :
  zero_row zero i t = Some t' ->
  length t' = length t /\
  (forall n, length <$> t' !! n = length <$> t !! n) /\
  zero_row zero i t' = Some t'.
Proof.
  intros H. destruct (zero_row_spec i t t' H) as (j & row & Hj & Hrow & ->).
  unfold tensor in *.
  assert (j < length t) as Hlt by (by eapply lookup_lt_Some).
  split; [apply length_insert|]. split.
  - intros n. destruct (decide (n = j)) as [->|Hne].
    + rewrite list_lookup_insert_eq, Hrow by done. simpl.
      by rewrite length_replicate.
    + by rewrite list_lookup_insert_ne.
  - unfold zero_row. rewrite length_insert, Hj. f_equal. unfold tensor.
    apply list_eq. intros n. destruct (decide (n = j)) as [->|Hne].
    + rewrite list_lookup_alter_eq, list_lookup_insert_eq by done. simpl.
      f_equal. clear. induction (length row); simpl; by f_equal.
    + by rewrite list_lookup_alter_ne.
Qed.

(** X11.  Zeroing a row keeps the shape of the tensor, the number of its
    rows and the length of each, and zeroing the same row again changes
    nothing. *)
Theorem zero_row_shape i (t t' : tensor (scalar:=scalar)) :
  zero_row zero i t = Some t' ->
  length t' = length t /\
  (forall n, length <$> t' !! n = length <$> t !! n) /\
  zero_row zero i t' = Some t'.
Proof. apply zero_row_facts. Qed.

(** X12.  For [roberta_large], when the mask index is an integer of 64
    bits and the tensor under ["embed_tokens.weight"] has no row for it,
    the load raises the [IndexError] of the indexing: no tensor is written
    and the model is not built. *)
Theorem mask_index_out_of_range theme (w : world (scalar:=scalar))
    arch alphabet l :
  PyDict.get "arch" (ck_args (model_data w)) = Some arch ->
  is_str arch "roberta_large" = true ->
  from_architecture arch theme = inr alphabet ->
  PyDict.get "embed_tokens.weight"
    (PyDict.rekey RobertaLarge.state_key (ck_model (model_data (merged w)))) = Some l ->
  (- 2 ^ 63 <= mask_idx alphabet < 2 ^ 63)%Z ->
  (mask_idx alphabet < - Z.of_nat (length (tensors w l)) \/
   Z.of_nat (length (tensors w l)) <= mask_idx alphabet)%Z ->
  load theme w = (inl IndexError, merged w).
Proof.
  intros Harch Hrob Halpha Hkey Hfit Hidx.
  rewrite load_run, build_model_run, Harch, Halpha, upgrade_run, Hrob.
  cbv zeta. rewrite zero_mask_row_run, Hkey, merged_tensors.
  rewrite (fits_int64_true _ Hfit). simpl.
  unfold zero_row. by rewrite row_index_None.
Qed.

(** X13.  When the alphabet cannot be made for the architecture, the load
    fails with that failure right after the merge: nothing is rewritten and,
    also for [roberta_large], no tensor is written. *)
Theorem alphabet_failure_stops_load theme (w : world (scalar:=scalar)) arch what :
  PyDict.get "arch" (ck_args (model_data w)) = Some arch ->
  from_architecture arch theme = inl what ->
  load theme w = (inl (CollaboratorError what), merged w) /\
  tensors (load theme w).2 = tensors w.
Proof.
  intros Harch Halpha.
  rewrite load_run, build_model_run, Harch, Halpha. split; [done|].
  apply merged_tensors.
Qed.

(** *** What a load leaves behind *)

Lemma finish_warnings model model_state mtype (alphabet : Alphabet)
    (w : world (scalar:=scalar)) :
  (is_Some (regression_data w) ->
   warnings (finish model model_state mtype alphabet w).2 = warnings w) /\
  (warnings (finish model model_state mtype alphabet w).2 = warnings w \/
   warnings (finish model model_state mtype alphabet w).2
     = (warnings w ++ [regression_warning])%list).
Proof.
  rewrite finish_load_run.
  destruct (regression_data w) eqn:Hreg.
  { rewrite assign_run. simpl. by split; [|left]. }
  split; [by intros [? ?]|].
  destruct (check_keys_cases (class_name mtype)
    (list_to_set (state_dict_keys model)) (PyDict.keys model_state) w)
    as [[msgs ->] | ->]; [by left|].
  rewrite assign_run. simpl. destruct (truthy _); [by right | by left].
Qed.

Lemma load_warnings_cases theme (w : world (scalar:=scalar)) :
  (is_Some (regression_data w) -> warnings (load theme w).2 = warnings w) /\
  (warnings (load theme w).2 = warnings w \/
   warnings (load theme w).2 = (warnings w ++ [regression_warning])%list).
Proof.
  rewrite load_run.
  pose proof (build_frame theme w) as (_ & Hr & Hw).
  destruct (build theme w) as [[e|[[[model mstate] mtype] alphabet]] w1].
  { simpl in *. by split; [|left]. }
  simpl in Hr, Hw.
  destruct (finish_warnings model mstate mtype alphabet w1) as [H1 H2].
  rewrite Hr, Hw in *. by split.
Qed.

(** X14.  A load issues at most one warning, the regression warning, and
    none at all when there is regression data. *)
Theorem load_warnings theme (w : world (scalar:=scalar)) :
  (is_Some (regression_data w) -> warnings (load theme w).2 = warnings w) /\
  (warnings (load theme w).2 = warnings w \/
   warnings (load theme w).2 = (warnings w ++ [regression_warning])%list).
Proof. apply load_warnings_cases. Qed.

Lemma upgrade_tensors arch alphabet (w : world (scalar:=scalar)) :
  (upgrade arch alphabet w).2 = w \/
  exists l t,
    is_str arch "roberta_large" = true /\
    PyDict.get "embed_tokens.weight"
      (PyDict.rekey RobertaLarge.state_key (ck_model (model_data w))) = Some l /\
    zero_row zero (mask_idx alphabet) (tensors w l) = Some t /\
    (upgrade arch alphabet w).2 = with_tensor l t w.
Proof.
  rewrite upgrade_run. cbv zeta.
  destruct (is_str arch "roberta_large") eqn:Hrob.
  { destruct (zero_mask_row_cases
      (PyDict.rekey RobertaLarge.state_key (ck_model (model_data w))) alphabet w)
      as [(e & -> & _) | (l & t & Hl & _ & Ht & _ & ->)]; [by left|].
    right. by exists l, t. }
  destruct (is_str arch "protein_bert_base"); [by left|].
  destruct (is_str arch "msa_transformer"); by left.
Qed.

Lemma build_tensors theme (w : world (scalar:=scalar)) :
  tensors (build theme w).2 = tensors w \/
  exists l t alphabet,
    zero_row zero (mask_idx alphabet) (tensors w l) = Some t /\
    tensors (build theme w).2 = <[ l := t ]> (tensors w).
Proof.
  rewrite build_model_run.
  destruct (PyDict.get "arch" _) as [arch|]; [|left; apply merged_tensors].
  destruct (from_architecture arch theme) as [what|alphabet];
    [left; apply merged_tensors|].
  destruct (upgrade_tensors arch alphabet (merged w))
    as [Hsame | (l & t & _ & _ & Ht & Hw)].
  - left. destruct (upgrade arch alphabet (merged w))
      as [[e|[[margs mstate] mtype]] w2]; simpl in Hsame; subst w2.
    + apply merged_tensors.
    + destruct (construct mtype margs alphabet); apply merged_tensors.
  - right. exists l, t, alphabet. rewrite merged_tensors in Ht. split; [done|].
    destruct (upgrade arch alphabet (merged w))
      as [[e|[[margs mstate] mtype]] w2]; simpl in Hw; subst w2.
    + simpl. by rewrite merged_tensors.
    + destruct (construct mtype margs alphabet); simpl; by rewrite merged_tensors.
Qed.

(** X15.  Whatever the outcome, a load writes to at most one tensor, and
    there it zeroes one row: every tensor keeps its shape, and all of them
    but one are as before. *)
Theorem load_tensors theme (w : world (scalar:=scalar)) :
  exists l,
    (forall l', l' <> l -> tensors (load theme w).2 l' = tensors w l') /\
    (tensors (load theme w).2 l = tensors w l \/
     exists j row,
       tensors w l !! j = Some row /\
       tensors (load theme w).2 l
         = <[ j := replicate (length row) zero ]> (tensors w l)).
Proof.
  assert (tensors (load theme w).2 = tensors (build theme w).2) as ->.
  { rewrite load_run.
    destruct (build theme w) as [[e|[[[model mstate] mtype] alphabet]] w1];
      [done|].
    by destruct (finish_frame model mstate mtype alphabet w1) as (_ & _ & ->). }
  destruct (build_tensors theme w) as [-> | (l & t & alphabet & Ht & ->)].
  - exists 0. split; [done | by left].
  - exists l. split.
    + intros l' Hne. by rewrite fn_lookup_insert_ne.
    + right. rewrite fn_lookup_insert.
      destruct (zero_row_spec _ _ _ Ht) as (j & row & _ & Hrow & ->).
      by exists j, row.
Qed.

(** *** What a successful load tells *)

(** X16.  When the load returns a model, the architecture is one of the
    three, the model was built and the assignment accepted the rewritten
    state; and without regression data every found key was expected and
    every expected key was found, but for the two regression keys. *)
Theorem load_success theme (w : world (scalar:=scalar)) model' alphabet :
  (load theme w).1 = inr (model', alphabet) ->
  exists arch model model_state mtype w1,
    PyDict.get "arch" (ck_args (model_data w)) = Some arch /\
    (is_str arch "roberta_large" = true \/
     is_str arch "protein_bert_base" = true \/
     is_str arch "msa_transformer" = true) /\
    build theme w = (inr (model, model_state, mtype, alphabet), w1) /\
    load_state_dict model (deref w1 model_state)
      (bool_decide (regression_data w <> None)) = inr model' /\
    (regression_data w = None ->
     PyDict.keys model_state ∖ list_to_set (state_dict_keys model) = ∅ /\
     (list_to_set (state_dict_keys model) ∖ PyDict.keys model_state)
       ∖ expected_missing = ∅).
Proof.
  intros Hok. rewrite load_run in Hok.
  pose proof (build_frame theme w) as (_ & Hr & _).
  pose proof (build_model_run theme w) as Hrun.
  destruct (build theme w) as [[e|[[[model mstate] mtype] alphabet']] w1] eqn:Hb;
    [done|].
  simpl in Hr.
  destruct (PyDict.get "arch" _) as [arch|] eqn:Harch; [|done].
  destruct (from_architecture arch theme) as [what|a]; [done|].
  assert (is_str arch "roberta_large" = true \/
          is_str arch "protein_bert_base" = true \/
          is_str arch "msa_transformer" = true) as Hknown.
  { rewrite upgrade_run in Hrun. cbv zeta in Hrun.
    destruct (is_str arch "roberta_large"); [by left|].
    destruct (is_str arch "protein_bert_base"); [by right; left|].
    destruct (is_str arch "msa_transformer"); [by right; right|done]. }
  rewrite finish_load_run, Hr in Hok.
  destruct (regression_data w) as [reg|] eqn:Hreg.
  - rewrite assign_run in Hok. simpl in Hok.
    destruct (load_state_dict _ _ _) as [what|m] eqn:Hl; [done|].
    injection Hok as -> ->.
    exists arch, model, mstate, mtype, w1. repeat split; try done.
  - destruct (decide ((list_to_set (state_dict_keys model) ∖ PyDict.keys mstate)
                        ∖ expected_missing = ∅)) as [Hm|Hm];
      [destruct (decide (PyDict.keys mstate ∖ list_to_set (state_dict_keys model) = ∅))
         as [Hu|Hu]|].
    + rewrite (check_keys_pass _ _ _ w1 Hm Hu), assign_run in Hok. simpl in Hok.
      assert (forall v : world (scalar:=scalar),
        deref (if truthy (expected_missing ∖ PyDict.keys mstate)
               then with_warning regression_warning v else v) mstate
        = deref v mstate) as Hderef by (intros v; by destruct (truthy _)).
      rewrite Hderef in Hok.
      destruct (load_state_dict _ _ _) as [what|m] eqn:Hl; [done|].
      injection Hok as -> ->.
      exists arch, model, mstate, mtype, w1. repeat split; done.
    + destruct (check_keys_error (class_name mtype) _ _ w1 (or_intror Hu))
        as (msgs & Hck & _). by rewrite Hck in Hok.
    + destruct (check_keys_error (class_name mtype) _ _ w1 (or_introl Hm))
        as (msgs & Hck & _). by rewrite Hck in Hok.
Qed.


(** *** Loading the same checkpoint again *)

Lemma deref_ext (v1 v2 : world (scalar:=scalar)) (model_state : list (string * loc)) :
  (forall l, tensors v1 l = tensors v2 l) ->
  deref v1 model_state = deref v2 model_state.
Proof.
  intros H. unfold deref. apply list_fmap_ext. intros _ [k l] _. simpl.
  by rewrite H.
Qed.

Lemma check_keys_fst cls expected found (v1 v2 : world (scalar:=scalar)) :
  (check_keys cls expected found v1).1 = (check_keys cls expected found v2).1.
Proof.
  unfold check_keys. cbv zeta.
  destruct (truthy (expected ∖ found ∖ expected_missing)),
    (truthy (found ∖ expected)); simpl; try done.
  by destruct (truthy (expected_missing ∖ found)).
Qed.

Lemma check_keys_frame cls expected found (v : world (scalar:=scalar)) :
  tensors (check_keys cls expected found v).2 = tensors v.
Proof.
  destruct (check_keys_cases cls expected found v) as [[msgs ->] | ->]; [done|].
  simpl. by destruct (truthy _).
Qed.

Lemma finish_cong model model_state mtype (alphabet : Alphabet)
    (v1 v2 : world (scalar:=scalar)) :
  regression_data v1 = regression_data v2 ->
  (forall l, tensors v1 l = tensors v2 l) ->
  (finish model model_state mtype alphabet v1).1
    = (finish model model_state mtype alphabet v2).1.
Proof.
  intros Hr Ht. rewrite !finish_load_run, <- Hr.
  destruct (regression_data v1).
  { rewrite !assign_run. simpl. by rewrite (deref_ext v1 v2). }
  pose proof (check_keys_fst (class_name mtype)
    (list_to_set (state_dict_keys model)) (PyDict.keys model_state) v1 v2) as Hck.
  pose proof (check_keys_frame (class_name mtype)
    (list_to_set (state_dict_keys model)) (PyDict.keys model_state) v1) as Hf1.
  pose proof (check_keys_frame (class_name mtype)
    (list_to_set (state_dict_keys model)) (PyDict.keys model_state) v2) as Hf2.
  destruct (check_keys _ _ _ v1) as [[e1|[]] u1],
    (check_keys _ _ _ v2) as [[e2|[]] u2]; simpl in *; try done.
  { by injection Hck as ->. }
  rewrite !assign_run. simpl.
  rewrite (deref_ext u1 u2); [done|]. intros l. by rewrite Hf1, Hf2.
Qed.

(** The branch on the architecture, taken again on the world it left. *)
Lemma upgrade_again arch alphabet (v v' : world (scalar:=scalar)) :
  model_data v' = model_data v ->
  inplace_refused v' = inplace_refused v ->
  (forall l, tensors v' l = tensors (upgrade arch alphabet v).2 l) ->
  (upgrade arch alphabet v').1 = (upgrade arch alphabet v).1 /\
  (forall l, tensors (upgrade arch alphabet v').2 l
             = tensors (upgrade arch alphabet v).2 l).
Proof.
  intros Hm Hg. rewrite !upgrade_run, Hm. cbv zeta.
  destruct (is_str arch "roberta_large").
  2: { destruct (is_str arch "protein_bert_base"); [done|].
       by destruct (is_str arch "msa_transformer"). }
  rewrite !zero_mask_row_run, Hg.
  destruct (PyDict.get _ _) as [l0|]; [|done].
  destruct (negb (fits_int64 _)); [done|].
  destruct (zero_row zero (mask_idx alphabet) (tensors v l0)) as [t|] eqn:Ht.
  - destruct (inplace_refused v l0); simpl; intros Hv.
    { by rewrite (Hv l0), Ht. }
    rewrite (Hv l0), fn_lookup_insert.
    destruct (zero_row_facts _ _ _ Ht) as (_ & _ & ->). simpl.
    split; [done|]. intros l. destruct (decide (l0 = l)) as [->|Hne].
    + by rewrite !fn_lookup_insert.
    + rewrite !fn_lookup_insert_ne by done. rewrite (Hv l).
      by rewrite fn_lookup_insert_ne.
  - simpl. intros Hv. by rewrite (Hv l0), Ht.
Qed.

Lemma build_tensors_upgrade theme (v : world (scalar:=scalar)) arch alphabet :
  PyDict.get "arch" (ck_args (model_data v)) = Some arch ->
  from_architecture arch theme = inr alphabet ->
  tensors (build theme v).2 = tensors (upgrade arch alphabet (merged v)).2.
Proof.
  intros Harch Halpha. rewrite build_model_run, Harch, Halpha.
  destruct (upgrade arch alphabet (merged v)) as [[e|[[margs mstate] mtype]] w2];
    [done|].
  by destruct (construct mtype margs alphabet).
Qed.

Lemma finish_inplace_refused model model_state mtype (alphabet : Alphabet)
    (w : world (scalar:=scalar)) :
  inplace_refused (finish model model_state mtype alphabet w).2 = inplace_refused w.
Proof.
  rewrite finish_load_run.
  destruct (regression_data w) eqn:Hreg; [by rewrite assign_run|].
  destruct (check_keys_cases (class_name mtype)
    (list_to_set (state_dict_keys model)) (PyDict.keys model_state) w)
    as [[msgs ->] | ->]; [done|].
  rewrite assign_run. simpl.
  by destruct (truthy _).
Qed.

Lemma load_inplace_refused theme (w : world (scalar:=scalar)) :
  inplace_refused (load theme w).2 = inplace_refused w.
Proof.
  rewrite load_run, build_model_run, <- (merged_inplace_refused w).
  destruct (PyDict.get "arch" _) as [arch|]; [|done].
  destruct (from_architecture arch theme) as [what|alphabet]; [done|].
  pose proof (upgrade_inplace_refused arch alphabet (merged w)) as Hg.
  destruct (upgrade arch alphabet (merged w)) as [[e|[[margs mstate] mtype]] w2];
    [done|].
  destruct (construct mtype margs alphabet) as [what|model]; [done|].
  by rewrite finish_inplace_refused.
Qed.

Lemma load_again theme (v v' : world (scalar:=scalar)) :
  model_data (merged v') = model_data (merged v) ->
  regression_data v' = regression_data v ->
  inplace_refused v' = inplace_refused v ->
  (forall l, tensors v' l = tensors (build theme v).2 l) ->
  (load theme v').1 = (load theme v).1 /\
  (forall l, tensors (load theme v').2 l = tensors (load theme v).2 l).
Proof.
  intros Hm Hr Hg Ht.
  assert (ck_args (model_data v') = ck_args (model_data v)) as Hargs.
  { by rewrite <- (merged_args v'), <- (merged_args v), Hm. }
  rewrite !load_run, !build_model_run, Hargs.
  destruct (PyDict.get "arch" _) as [arch|] eqn:Harch.
  2: { simpl. split; [done|]. intros l.
       rewrite merged_tensors, Ht, build_model_run, Harch. done. }
  destruct (from_architecture arch theme) as [what|alphabet] eqn:Halpha.
  { simpl. split; [done|]. intros l.
    rewrite merged_tensors, Ht, build_model_run, Harch, Halpha. done. }
  destruct (upgrade_again arch alphabet (merged v) (merged v') Hm) as [Hu1 Hu2].
  { by rewrite !merged_inplace_refused. }
  { intros l. rewrite merged_tensors, Ht.
    by rewrite (build_tensors_upgrade theme v arch alphabet). }
  pose proof (upgrade_frame arch alphabet (merged v)) as (_ & Hrv & _).
  pose proof (upgrade_frame arch alphabet (merged v')) as (_ & Hrv' & _).
  rewrite merged_regression_data in Hrv, Hrv'.
  destruct (upgrade arch alphabet (merged v)) as [[e|[[margs mstate] mtype]] w2],
    (upgrade arch alphabet (merged v')) as [[e'|[[margs' mstate'] mtype']] w2'];
    simpl in *; try done.
  { injection Hu1 as ->. by split. }
  injection Hu1 as -> -> ->.
  destruct (construct mtype margs alphabet) as [what|model]; [by split|].
  split.
  - apply finish_cong; [congruence | done].
  - intros l.
    destruct (finish_frame model mstate mtype alphabet w2) as (_ & _ & ->).
    destruct (finish_frame model mstate mtype alphabet w2') as (_ & _ & ->).
    apply Hu2.
Qed.

(** X18.  Loading again from the checkpoint a load has left behind gives
    the same outcome as the first load, success or failure alike, and
    leaves the dict of the checkpoint and every tensor as the first load
    left them: the merge and the zeroing of the mask row, done a second
    time, change nothing. *)
Theorem reload_same_result theme (w : world (scalar:=scalar)) :
  (forall reg, regression_data w = Some reg -> NoDup (ck_model reg).*1) ->
  (load theme (load theme w).2).1 = (load theme w).1 /\
  model_data (load theme (load theme w).2).2 = model_data (load theme w).2 /\
  (forall l, tensors (load theme (load theme w).2).2 l
             = tensors (load theme w).2 l).
Proof.
  intros Hwf.
  destruct (load_frame theme w) as [Hmd Hrd].
  assert (model_data (merged (load theme w).2) = model_data (merged w)) as Hm.
  { unfold merged at 1. rewrite Hrd.
    destruct (regression_data w) as [reg|] eqn:Hreg; [|done].
    simpl. rewrite Hmd. unfold merged. rewrite Hreg. simpl.
    by rewrite update_twice by (by apply Hwf). }
  assert (tensors (load theme w).2 = tensors (build theme w).2) as Ht.
  { rewrite load_run.
    destruct (build theme w) as [[e|[[[model mstate] mtype] alphabet]] w1];
      [done|].
    by destruct (finish_frame model mstate mtype alphabet w1) as (_ & _ & ->). }
  destruct (load_again theme w (load theme w).2 Hm Hrd (load_inplace_refused theme w))
    as [H1 H2].
  { intros l. by rewrite Ht. }
  split; [done|]. split; [|done].
  destruct (load_frame theme (load theme w).2) as [-> _].
  by rewrite Hm, Hmd.
Qed.

(** With regression data the loader itself never reports keys. *)
Lemma load_no_key_error theme (w : world (scalar:=scalar)) cls msgs :
  is_Some (regression_data w) ->
  (load theme w).1 <> inl (RuntimeError cls msgs).
Proof.
  intros [reg Hreg]. rewrite load_run, build_model_run.
  destruct (PyDict.get "arch" _) as [arch|]; [|done].
  destruct (from_architecture arch theme) as [what|alphabet]; [done|].
  pose proof (upgrade_frame arch alphabet (merged w)) as (_ & Hr & _).
  rewrite merged_regression_data, Hreg in Hr.
  rewrite upgrade_run in *. cbv zeta in *.
  assert (forall model mstate mtype (v : world (scalar:=scalar)),
    regression_data v = Some reg ->
    (finish model mstate mtype alphabet v).1 <> inl (RuntimeError cls msgs))
    as Hfin.
  { intros model mstate mtype v Hv. rewrite finish_load_run, Hv, assign_run.
    simpl. by destruct (load_state_dict _ _ _). }
  destruct (is_str arch "roberta_large").
  { destruct (zero_mask_row_cases
      (PyDict.rekey RobertaLarge.state_key (ck_model (model_data (merged w))))
      alphabet (merged w))
      as [(e & He & Hne) | (l & t & _ & _ & _ & _ & He)]; rewrite He in *.
    - simpl. intros [= ->]. by eapply Hne.
    - destruct (construct _ _ _); [done|]. by apply Hfin. }
  destruct (is_str arch "protein_bert_base").
  { destruct (construct _ _ _); [done|]. by apply Hfin. }
  destruct (is_str arch "msa_transformer"); [|done].
  destruct (construct _ _ _); [done|]. by apply Hfin.
Qed.

End LoaderFacts.

(** ** The loader on concrete checkpoints *)

(** C4 as the specification words it fails: with regression data and a key
    ["z"] the model does not expect, what fails is the assignment, not a
    key check made before it. *)
Lemma no_key_check_with_regression :
  let w := Demo.start "protein_bert_base" [("x", 0); ("z", 1)] (Some []) in
  (list_to_set ["x"; "z"] : gset string) ∖ list_to_set ["x"] = {[ "z" ]} /\
  (Demo.load ["x"] "protein" w).1
    = inl (CollaboratorError "load_state_dict: the keys do not match").
Proof. split; by vm_compute. Qed.

(** C2 as the specification words it fails: a model without the two
    regression keys loads with the warning, though the two keys are not
    among the expected keys that were not found. *)
Lemma warning_without_regression_keys :
  let w := Demo.start "protein_bert_base" [("x", 0)] None in
  (Demo.load ["x"] "protein" w).1 = inr (["x"], 1%Z) /\
  warnings (Demo.load ["x"] "protein" w).2 = [regression_warning] /\
  ~ expected_missing ⊆ (list_to_set ["x"] : gset string) ∖ PyDict.keys [("x", 0)].
Proof.
  split; [by vm_compute|]. split; [by vm_compute|].
  intros H. specialize (H "contact_head.regression.weight").
  apply (bool_decide_eq_false_1 ("contact_head.regression.weight" ∈
    (list_to_set ["x"] : gset string) ∖ PyDict.keys [("x", 0)])); [by vm_compute|].
  apply H. by apply (bool_decide_eq_true_1 _); vm_compute.
Qed.

(** C3 as the specification words it fails: the dict of the checkpoint has
    taken the regression entry by the time the architecture is refused. *)
Lemma unknown_architecture_merges_first :
  let w := Demo.start "gpt" [("a", 1)] (Some [("c", 3)]) in
  (Demo.load [] "protein" w).1 = inl (ValueError "Unknown architecture selected") /\
  ck_model (model_data (Demo.load [] "protein" w).2) = [("a", 1); ("c", 3)] /\
  ck_model (model_data (Demo.load [] "protein" w).2) <> ck_model (model_data w).
Proof. split; [by vm_compute|]. split; [by vm_compute|]. by vm_compute. Qed.

(** C6 as the specification words it fails: after the load the dict of the
    checkpoint is the merged one. *)
Lemma merge_changes_primary :
  let w := Demo.start "protein_bert_base" [("a", 1); ("b", 2)]
             (Some [("b", 9); ("c", 3)]) in
  ck_model (model_data (Demo.load ["a"; "b"; "c"] "protein" w).2)
    = [("a", 1); ("b", 9); ("c", 3)] /\
  ck_model (model_data (Demo.load ["a"; "b"; "c"] "protein" w).2)
    <> ck_model (model_data w).
Proof. split; by vm_compute. Qed.

(** ** The theorems at work on concrete checkpoints *)

Lemma missing_embed_tokens_key_error_witness :
  let w := Demo.start "roberta_large"
             [("encoder.sentence_encoder.layers.0.fc1.bias", 0)] None in
  (PyDict.get "arch" (ck_args (model_data w)) = Some (PStr "roberta_large") /\
   is_str (PStr "roberta_large") "roberta_large" = true /\
   Demo.from_architecture (PStr "roberta_large") "protein" = inr 1%Z /\
   PyDict.get "embed_tokens.weight"
     (PyDict.rekey RobertaLarge.state_key (ck_model (model_data (merged w)))) = None) /\
  Demo.load ["embed_tokens.weight"; "layers.0.fc1.bias"] "protein" w
    = (inl (KeyError "embed_tokens.weight"), merged w).
Proof.
  split; [repeat split; reflexivity|].
  apply (missing_embed_tokens_key_error 0%Z Demo.from_architecture Demo.mask_idx
           (Demo.construct ["embed_tokens.weight"; "layers.0.fc1.bias"])
           Demo.state_dict_keys Demo.load_state_dict "protein" _
           (PStr "roberta_large") 1%Z); reflexivity.
Defined.

Lemma unknown_architecture_after_merge_witness :
  let w := Demo.start "gpt" [("a", 1)] (Some [("c", 3)]) in
  (PyDict.get "arch" (ck_args (model_data w)) = Some (PStr "gpt") /\
   is_str (PStr "gpt") "roberta_large" = false /\
   is_str (PStr "gpt") "protein_bert_base" = false /\
   is_str (PStr "gpt") "msa_transformer" = false) /\
  exists e, Demo.load [] "protein" w = (inl e, merged w).
Proof.
  split; [repeat split; reflexivity|].
  destruct (unknown_architecture_after_merge 0%Z Demo.from_architecture
              Demo.mask_idx (Demo.construct []) Demo.state_dict_keys
              Demo.load_state_dict "protein"
              (Demo.start "gpt" [("a", 1)] (Some [("c", 3)])) (PStr "gpt")
              eq_refl eq_refl eq_refl eq_refl) as [[e [He _]] _].
  exists e. exact He.
Defined.

Lemma merge_in_place_witness :
  let w := Demo.start "protein_bert_base" [("a", 1); ("b", 2)]
             (Some [("b", 9); ("c", 3)]) in
  regression_data w = Some (Checkpoint [] [("b", 9); ("c", 3)]) /\
  ck_model (model_data (Demo.load ["a"; "b"; "c"] "protein" w).2)
    = PyDict.update [("a", 1); ("b", 2)] [("b", 9); ("c", 3)].
Proof.
  split; [reflexivity|].
  apply (merge_in_place 0%Z Demo.from_architecture Demo.mask_idx
           (Demo.construct ["a"; "b"; "c"]) Demo.state_dict_keys
           Demo.load_state_dict "protein"
           (Demo.start "protein_bert_base" [("a", 1); ("b", 2)]
              (Some [("b", 9); ("c", 3)]))
           (Checkpoint [] [("b", 9); ("c", 3)]) eq_refl).
Defined.

Lemma merge_overlays_witness :
  let w := Demo.start "protein_bert_base" [("a", 1); ("b", 2)]
             (Some [("b", 9); ("c", 3)]) in
  (forall reg, regression_data w = Some reg -> NoDup (ck_model reg).*1) /\
  forall k, PyDict.get k (ck_model (model_data (merged w))) =
    match PyDict.get k [("b", 9); ("c", 3)] with
    | Some v => Some v
    | None => PyDict.get k [("a", 1); ("b", 2)]
    end.
Proof.
  assert (forall reg,
    regression_data (Demo.start "protein_bert_base" [("a", 1); ("b", 2)]
                       (Some [("b", 9); ("c", 3)])) = Some reg ->
    NoDup (ck_model reg).*1) as Hwf.
  { intros reg [= <-]. apply (bool_decide_unpack _). vm_compute. exact I. }
  split; [exact Hwf|].
  destruct (merge_overlays _ Hwf) as (_ & _ & Hget & _).
  exact (Hget _ eq_refl).
Defined.


Lemma key_check_without_regression_witness :
  let keys := ["x"; "y"; "contact_head.regression.weight";
               "contact_head.regression.bias"] in
  let w := Demo.start "protein_bert_base" [("x", 0)] None in
  (regression_data w = None /\
   Demo.build keys "protein" w
     = (inr (keys, [("x", 0)], ProteinBertModel, 1%Z), w)) /\
  exists msgs,
    Demo.load keys "protein" w = (inl (RuntimeError "ProteinBertModel" msgs), w) /\
    reported_missing msgs
      = ((list_to_set keys ∖ PyDict.keys [("x", 0)]) ∖ expected_missing) /\
    reported_unexpected msgs = PyDict.keys [("x", 0)] ∖ list_to_set keys.
Proof.
  split; [split; reflexivity|].
  apply (key_check_without_regression 0%Z Demo.from_architecture Demo.mask_idx
           (Demo.construct ["x"; "y"; "contact_head.regression.weight";
                            "contact_head.regression.bias"])
           Demo.state_dict_keys Demo.load_state_dict "protein"
           (Demo.start "protein_bert_base" [("x", 0)] None)
           _ _ _ _ _ eq_refl eq_refl).
  left. apply truthy_true. vm_compute. reflexivity.
Defined.

Lemma regression_warning_condition_witness :
  let w := Demo.start "protein_bert_base" [("x", 0)] None in
  (regression_data w = None /\
   Demo.build ["x"] "protein" w
     = (inr (["x"], [("x", 0)], ProteinBertModel, 1%Z), w) /\
   ((list_to_set ["x"] : gset string) ∖ PyDict.keys [("x", 0)]) ∖ expected_missing = ∅ /\
   PyDict.keys [("x", 0)] ∖ (list_to_set ["x"] : gset string) = ∅) /\
  warnings (Demo.load ["x"] "protein" w).2 = [regression_warning].
Proof.
  assert (((list_to_set ["x"] : gset string) ∖ PyDict.keys [("x", 0)])
            ∖ expected_missing = ∅) as Hm by (vm_compute; reflexivity).
  assert (PyDict.keys [("x", 0)] ∖ (list_to_set ["x"] : gset string) = ∅)
    as Hu by (vm_compute; reflexivity).
  split; [repeat split; first [reflexivity | assumption]|].
  apply (regression_warning_condition 0%Z Demo.from_architecture Demo.mask_idx
           (Demo.construct ["x"]) Demo.state_dict_keys Demo.load_state_dict
           "protein" (Demo.start "protein_bert_base" [("x", 0)] None)
           _ _ _ _ _ eq_refl eq_refl Hm Hu).
  apply truthy_true. vm_compute. reflexivity.
Defined.

Lemma key_check_skipped_with_regression_witness :
  let w := Demo.start "protein_bert_base" [("x", 0); ("z", 1)] (Some []) in
  (regression_data w = Some (Checkpoint [] []) /\
   Demo.build ["x"] "protein" w
     = (inr (["x"], [("x", 0); ("z", 1)], ProteinBertModel, 1%Z), w)) /\
  Demo.load ["x"] "protein" w
    = (match Demo.load_state_dict ["x"] (deref w [("x", 0); ("z", 1)]) true with
       | inl what => inl (CollaboratorError what)
       | inr model' => inr (model', 1%Z)
       end, w).
Proof.
  split; [split; reflexivity|].
  apply (key_check_skipped_with_regression 0%Z Demo.from_architecture
           Demo.mask_idx (Demo.construct ["x"]) Demo.state_dict_keys
           Demo.load_state_dict "protein"
           (Demo.start "protein_bert_base" [("x", 0); ("z", 1)] (Some []))
           (Checkpoint [] []) _ _ _ _ _ eq_refl eq_refl).
Defined.

(** ** The entry points *)

Module PyPathFacts.
Import PyStr PyStrFacts PyPath.

Lemma endswith_app suffix stem : endswith suffix (stem +:+ suffix) = true.
Proof.
  induction stem as [|c stem IH]; cbn [String.append endswith].
  - destruct suffix; cbn [endswith]; by rewrite String.eqb_refl.
  - rewrite IH. apply orb_true_r.
Qed.

Lemma len_app a b : len (a +:+ b) = len a + len b.
Proof.
  induction a as [|c a IH]; cbn [String.append len]; [done|].
  destruct (is_continuation c); by rewrite IH.
Qed.

(** The characters of [a] and [k] more of what follows. *)
Lemma take_app a b k : take (len a + k) (a +:+ b) = a +:+ take k b.
Proof.
  induction a as [|c a IH]; cbn [String.append len take]; [done|].
  destruct (is_continuation c); cbn [Nat.add]; by rewrite IH.
Qed.

Lemma len_continuations t :
  forallb is_continuation (list_ascii_of_string t) = true -> len t = 0.
Proof.
  induction t as [|c t IH]; cbn [list_ascii_of_string forallb len]; [done|].
  intros [-> Ht]%andb_true_iff. by apply IH.
Qed.

Lemma len_char c : is_char c = true -> len c = 1.
Proof.
  destruct c as [|b t]; [done|]. cbn [is_char len].
  intros [Hb Ht]%andb_true_iff. apply negb_true_iff in Hb. rewrite Hb.
  by rewrite len_continuations.
Qed.

Lemma take_0_char c r : is_char c = true -> take 0 (c +:+ r) = "".
Proof.
  destruct c as [|b t]; [done|]. cbn [is_char String.append take].
  intros [Hb _]%andb_true_iff. apply negb_true_iff in Hb. by rewrite Hb.
Qed.

(** Cutting the last three characters. *)
Lemma drop_last_chars stem c1 c2 c3 :
  is_char c1 = true -> is_char c2 = true -> is_char c3 = true ->
  drop_last 3 (stem +:+ c1 +:+ c2 +:+ c3) = stem.
Proof.
  intros H1 H2 H3. unfold drop_last.
  rewrite !len_app, (len_char c1), (len_char c2), (len_char c3) by done.
  replace (len stem + (1 + (1 + 1)) - 3) with (len stem + 0) by lia.
  by rewrite take_app, take_0_char, append_nil_r.
Qed.

Lemma endswith_pt_pth stem : endswith ".pt" (stem +:+ ".pth") = false.
Proof.
  induction stem as [|c stem IH]; [done|].
  cbn [String.append endswith]. rewrite IH, orb_false_r.
  apply String.eqb_neq. intros H.
  apply (f_equal String.length) in H. simpl in H.
  rewrite append_length in H. simpl in H. lia.
Qed.

Lemma split_step sep s before rest :
  sep <> "" -> find_sep sep s = Some (before, rest) ->
  split sep s = before :: split sep rest.
Proof.
  intros Hsep Hf. unfold split.
  pose proof (find_sep_shorter _ _ _ _ Hsep Hf) as Hlen.
  destruct (String.length s) as [|n]; [lia|].
  cbn [split_fuel]. rewrite Hf. f_equal.
  apply split_fuel_enough; [done | lia | done].
Qed.

Lemma slash_free_app a b :
  contains "/" a = false -> contains "/" b = false ->
  contains "/" (a +:+ b) = false.
Proof.
  intros Ha Hb. induction a as [|c a IH]; [done|].
  apply contains_false_cons in Ha as [Hc Ha].
  cbn [String.append]. rewrite contains_skip_char; [by apply IH|].
  cbn [strip_prefix] in *. by destruct (Ascii.eqb "/" c).
Qed.

(** The name of a path whose last component is plain. *)
Lemma name_of_pieces pieces x :
  x <> "" -> x <> "." ->
  default "" (last (filter (fun c : string => c <> "" /\ c <> ".")
                      (pieces ++ [x])%list)) = x.
Proof.
  intros H1 H2. rewrite filter_app, filter_cons_True, filter_nil by done.
  by rewrite last_snoc.
Qed.

Lemma name_under prefix pieces file :
  contains "/" file = false -> file <> "" -> file <> "." ->
  split "/" (prefix +:+ file) = (pieces ++ split "/" file)%list ->
  name (prefix +:+ file) = file.
Proof.
  intros Hfree H1 H2 Hsplit. unfold name.
  rewrite Hsplit, (split_fuel_no_sep _ "/" file Hfree : split "/" file = [file]).
  by apply name_of_pieces.
Qed.

Lemma name_model_url model_name :
  contains "/" model_name = false ->
  name (model_url model_name) = model_name +:+ ".pt".
Proof.
  intros Hfree. unfold model_url.
  apply (name_under _ ["https:"; ""; "dl.fbaipublicfiles.com"; "fair-esm"; "models"]).
  - by apply slash_free_app.
  - by destruct model_name.
  - destruct model_name as [|c [|c' t]]; done.
  - do 5 (erewrite split_step; [|done|reflexivity]). done.
Qed.

Lemma name_regression_url model_name :
  contains "/" model_name = false ->
  name (regression_url model_name) = model_name +:+ "-contact-regression.pt".
Proof.
  intros Hfree. unfold regression_url.
  apply (name_under _
    ["https:"; ""; "dl.fbaipublicfiles.com"; "fair-esm"; "regression"]).
  - by apply slash_free_app.
  - by destruct model_name.
  - destruct model_name as [|c [|c' t]]; done.
  - do 5 (erewrite split_step; [|done|reflexivity]). done.
Qed.

End PyPathFacts.

(** X19.  The regression weights of a checkpoint file are looked for under
    the path of the file with its last three characters, [.pt] for one,
    replaced by ["-contact-regression.pt"], characters and not bytes; a
    path of three characters gives ["-contact-regression.pt"] alone, as
    does ["ab"] followed by the one character U+6A21, of three bytes. *)
Theorem regression_location_of (stem c1 c2 c3 : string) :
  PyPath.is_char c1 = true ->
  PyPath.is_char c2 = true ->
  PyPath.is_char c3 = true ->
  regression_location (stem +:+ c1 +:+ c2 +:+ c3)
    = stem +:+ "-contact-regression.pt" /\
  regression_location (c1 +:+ c2 +:+ c3) = "-contact-regression.pt" /\
  regression_location ("ab" +:+ String "230" (String "168" (String "161" "")))
    = "-contact-regression.pt".
Proof.
  intros H1 H2 H3. unfold regression_location. split; [|split].
  - by rewrite PyPathFacts.drop_last_chars.
  - pose proof (PyPathFacts.drop_last_chars "" c1 c2 c3 H1 H2 H3) as Hcut.
    change ("" +:+ c1 +:+ c2 +:+ c3) with (c1 +:+ c2 +:+ c3) in Hcut.
    by rewrite Hcut.
  - reflexivity.
Qed.

Lemma regression_location_of_witness :
  let mo := String "230" (String "168" (String "161" "")) in
  (PyPath.is_char mo = true /\ PyPath.is_char "p" = true /\
   PyPath.is_char "t" = true) /\
  String.length (mo +:+ "p" +:+ "t") = 5 /\
  regression_location ("/data/esm1b" +:+ mo +:+ "p" +:+ "t")
    = "/data/esm1b" +:+ "-contact-regression.pt".
Proof.
  split; [repeat split; reflexivity|]. split; [reflexivity|].
  apply (regression_location_of "/data/esm1b"
           (String "230" (String "168" (String "161" ""))) "p" "t");
    reflexivity.
Defined.

Section EntryFacts.
Context {scalar : Type} (zero : scalar).
Context {Alphabet Model : Type}.
Context (from_architecture : pyval -> string -> string + Alphabet).
Context (mask_idx : Alphabet -> Z).
Context (construct :
  model_type -> list (string * pyval) -> Alphabet -> string + Model).
Context (state_dict_keys : Model -> list string).
Context (load_state_dict :
  Model -> list (string * tensor (scalar:=scalar)) -> bool -> string + Model).
Context (torch_load : string -> io_exn + checkpoint).
Context (load_state_dict_from_url : string -> io_exn + checkpoint).
Context (hub_dir : string).
Context (heap : loc -> tensor (scalar:=scalar) * bool).

Abbreviation core := (run_core zero from_architecture mask_idx construct
  state_dict_keys load_state_dict heap).
Abbreviation by_name_or_path := (load_model_and_alphabet zero from_architecture
  mask_idx construct state_dict_keys load_state_dict torch_load
  load_state_dict_from_url hub_dir heap).
Abbreviation from_hub := (load_model_and_alphabet_hub zero from_architecture
  mask_idx construct state_dict_keys load_state_dict torch_load
  load_state_dict_from_url hub_dir heap).
Abbreviation from_file := (load_model_and_alphabet_local zero from_architecture
  mask_idx construct state_dict_keys load_state_dict torch_load heap).
Abbreviation fetch := (load_hub_workaround torch_load load_state_dict_from_url
  hub_dir).

(** X20.  Called with a path that ends in [.pt], [load_model_and_alphabet]
    reads that file and the regression file beside it and nothing else, the
    hub least of all: without the checkpoint file it fails before it looks
    for the other, and without the regression file, and only then, it runs
    the core with no regression data. *)
Theorem load_model_and_alphabet_of_path (stem : string) :
  by_name_or_path (stem +:+ ".pt") =
    match torch_load (stem +:+ ".pt") with
    | inl e => inl e
    | inr md =>
        match torch_load (stem +:+ "-contact-regression.pt") with
        | inl (FileNotFoundError _) => core md None "protein"
        | inl e => inl e
        | inr rd => core md (Some rd) "protein"
        end
    end.
Proof.
  unfold load_model_and_alphabet, load_model_and_alphabet_local.
  rewrite PyPathFacts.endswith_app.
  unfold regression_location.
  pose proof (PyPathFacts.drop_last_chars stem "." "p" "t" eq_refl eq_refl eq_refl)
    as Hcut.
  change ("." +:+ "p" +:+ "t") with ".pt" in Hcut. by rewrite Hcut.
Qed.

(** X21.  A path that ends in [.pth] is not taken for a file by
    [load_model_and_alphabet], which asks the hub for it, and
    [load_model_and_alphabet_local] looks for its regression weights under
    the stem followed by [".-contact-regression.pt"], the dot kept; this is
    where [esm1b_rna_t12] looks beside its checkpoint. *)
Theorem pth_paths (stem : string) :
  by_name_or_path (stem +:+ ".pth") = from_hub (stem +:+ ".pth") "protein" /\
  regression_location (stem +:+ ".pth") = stem +:+ ".-contact-regression.pt" /\
  esm1b_rna_t12 zero from_architecture mask_idx construct state_dict_keys
    load_state_dict torch_load heap =
    match torch_load "./pretrained/RNA-FM_pretrained.pth" with
    | inl e => inl e
    | inr md =>
        match torch_load "./pretrained/RNA-FM_pretrained.-contact-regression.pt" with
        | inl (FileNotFoundError _) => core md None "rna"
        | inl e => inl e
        | inr rd => core md (Some rd) "rna"
        end
    end.
Proof.
  split; [|split].
  - unfold load_model_and_alphabet. by rewrite PyPathFacts.endswith_pt_pth.
  - unfold regression_location.
    change (stem +:+ ".pth") with (stem +:+ "." +:+ "p" +:+ "t" +:+ "h").
    rewrite <- PyStrFacts.append_assoc.
    rewrite (PyPathFacts.drop_last_chars (stem +:+ ".") "p" "t" "h") by done.
    by rewrite PyStrFacts.append_assoc.
  - reflexivity.
Qed.

(** X22.  When the download of a model whose name has no slash fails with
    a [RuntimeError], the checkpoint is read from the hub directory, from
    [checkpoints/] and the name followed by [.pt]; every other failure of
    the download is passed on. *)
Theorem hub_fallback_file (model_name what : string) :
  PyStr.contains "/" model_name = false ->
  load_state_dict_from_url (model_url model_name) = inl (LoadRuntimeError what) ->
  fetch (model_url model_name)
    = torch_load (hub_dir +:+ "/checkpoints/" +:+ model_name +:+ ".pt") /\
  (forall url e, load_state_dict_from_url url = inl e ->
     (forall what', e <> LoadRuntimeError what') -> fetch url = inl e).
Proof.
  intros Hfree Hfail. unfold load_hub_workaround. split.
  - by rewrite Hfail, PyPathFacts.name_model_url.
  - intros url e -> Hother. destruct e as [path|what'|what']; try done.
    by destruct (Hother what').
Qed.

(** X23.  A load from the hub that gets as far as the core has fetched the
    regression weights as well, there is no doing without them; the core
    then issues no warning and reports no keys of its own, missing or
    unexpected. *)
Theorem hub_load_has_regression (model_name theme : string) r w' :
  from_hub model_name theme = inr (r, w') ->
  (exists md rd,
     fetch (model_url model_name) = inr md /\
     fetch (regression_url model_name) = inr rd /\
     regression_data w' = Some rd) /\
  warnings w' = [] /\
  (forall cls msgs, r <> inl (RuntimeError cls msgs)).
Proof.
  unfold load_model_and_alphabet_hub, load_regression_hub, run_core.
  destruct (load_hub_workaround _ _ _ (model_url model_name)) as [e|md]; [done|].
  destruct (load_hub_workaround _ _ _ (regression_url model_name)) as [e|rd];
    [done|].
  set (w0 := {| model_data := md; regression_data := Some rd;
                tensors := fst ∘ heap; inplace_refused := snd ∘ heap;
                warnings := [] |}).
  intros [= Hrun].
  pose proof (load_frame zero from_architecture mask_idx construct
                state_dict_keys load_state_dict theme w0) as [_ Hrd].
  pose proof (load_warnings_cases zero from_architecture mask_idx construct
                state_dict_keys load_state_dict theme w0) as [Hw _].
  pose proof (load_no_key_error zero from_architecture mask_idx construct
                state_dict_keys load_state_dict theme w0) as Hk.
  rewrite Hrun in Hrd, Hw, Hk. simpl in *.
  split; [by exists md, rd|]. split; [by apply Hw|].
  intros cls msgs. by apply Hk.
Qed.

End EntryFacts.

(** ** The further theorems at work on concrete inputs *)

Lemma rekey_keeps_last_witness :
  (forall k, k ∈ ([("plain", 3)] : list (string * nat)).*1 ->
     RobertaLarge.state_key k <> RobertaLarge.state_key "encoder.w") /\
  PyDict.get (RobertaLarge.state_key "encoder.w")
    (PyDict.rekey RobertaLarge.state_key
       ([("w", 1)] ++ ("encoder.w", 2) :: [("plain", 3)])) = Some 2.
Proof.
  assert (forall k, k ∈ ([("plain", 3)] : list (string * nat)).*1 ->
     RobertaLarge.state_key k <> RobertaLarge.state_key "encoder.w") as H.
  { intros k Hk. apply list_elem_of_singleton in Hk. subst k. vm_compute.
    discriminate. }
  split; [exact H|].
  apply (rekey_keeps_last RobertaLarge.state_key [("w", 1)] "encoder.w" 2
           [("plain", 3)] H).
Defined.

Lemma rekey_without_collision_witness :
  NoDup (RobertaLarge.state_key <$>
           ([("encoder.a", 1); ("encoder.sentence_encoder.b", 2)]
              : list (string * nat)).*1) /\
  PyDict.rekey RobertaLarge.state_key
    [("encoder.a", 1); ("encoder.sentence_encoder.b", 2)]
    = [("a", 1); ("b", 2)].
Proof.
  assert (NoDup (RobertaLarge.state_key <$>
           ([("encoder.a", 1); ("encoder.sentence_encoder.b", 2)]
              : list (string * nat)).*1)) as H.
  { apply (bool_decide_unpack _). vm_compute. exact I. }
  split; [exact H|].
  apply (rekey_without_collision RobertaLarge.state_key
           [("encoder.a", 1); ("encoder.sentence_encoder.b", 2)] H).
Defined.

Lemma update_idempotent_witness :
  NoDup ([("b", 9); ("c", 3)] : list (string * nat)).*1 /\
  PyDict.update (PyDict.update [("a", 1); ("b", 2)] [("b", 9); ("c", 3)])
    [("b", 9); ("c", 3)]
    = PyDict.update [("a", 1); ("b", 2)] [("b", 9); ("c", 3)].
Proof.
  assert (NoDup ([("b", 9); ("c", 3)] : list (string * nat)).*1) as H.
  { apply (bool_decide_unpack _). vm_compute. exact I. }
  split; [exact H|].
  apply (update_idempotent [("a", 1); ("b", 2)] [("b", 9); ("c", 3)] H).
Defined.

Lemma zero_row_shape_witness :
  zero_row 0%Z 1 Demo.some_tensor = Some [[1; 2]; [0; 0]; [5; 6]]%Z /\
  zero_row 0%Z 1 [[1; 2]; [0; 0]; [5; 6]]%Z = Some [[1; 2]; [0; 0]; [5; 6]]%Z.
Proof.
  split; [reflexivity|].
  apply (zero_row_shape 0%Z 1 Demo.some_tensor). reflexivity.
Defined.

Lemma mask_index_out_of_range_witness :
  let w := {| model_data :=
                {| ck_args := [("arch", PStr "roberta_large")];
                   ck_model := [("encoder.sentence_encoder.embed_tokens.weight", 7)] |};
              regression_data := None;
              tensors := fun _ => [[1; 2]]%Z;
              inplace_refused := fun _ => false;
              warnings := [] |} in
  (PyDict.get "arch" (ck_args (model_data w)) = Some (PStr "roberta_large") /\
   is_str (PStr "roberta_large") "roberta_large" = true /\
   Demo.from_architecture (PStr "roberta_large") "protein" = inr 1%Z /\
   PyDict.get "embed_tokens.weight"
     (PyDict.rekey RobertaLarge.state_key (ck_model (model_data (merged w))))
     = Some 7 /\
   (- 2 ^ 63 <= Demo.mask_idx 1 < 2 ^ 63)%Z /\
   (Z.of_nat (length (tensors w 7%nat)) <= Demo.mask_idx 1)%Z) /\
  Demo.load ["embed_tokens.weight"] "protein" w = (inl IndexError, merged w).
Proof.
  split; [repeat split; first [reflexivity | simpl; unfold Demo.mask_idx; lia]|].
  apply (mask_index_out_of_range 0%Z Demo.from_architecture Demo.mask_idx
           (Demo.construct ["embed_tokens.weight"]) Demo.state_dict_keys
           Demo.load_state_dict "protein" _ (PStr "roberta_large") 1%Z 7);
    first [reflexivity | unfold Demo.mask_idx; lia
          | right; simpl; unfold Demo.mask_idx; lia].
Defined.

Lemma alphabet_failure_stops_load_witness :
  let w := Demo.start "roberta_large"
             [("encoder.sentence_encoder.embed_tokens.weight", 7)] None in
  (PyDict.get "arch" (ck_args (model_data w)) = Some (PStr "roberta_large") /\
   DemoIO.from_architecture (PStr "roberta_large") "dna"
     = inl "Unknown theme selected") /\
  tensors (load_model_and_alphabet_core 0%Z DemoIO.from_architecture
             Demo.mask_idx (Demo.construct ["embed_tokens.weight"])
             Demo.state_dict_keys Demo.load_state_dict "dna" w).2
    = tensors w.
Proof.
  split; [split; reflexivity|].
  apply (alphabet_failure_stops_load 0%Z DemoIO.from_architecture Demo.mask_idx
           (Demo.construct ["embed_tokens.weight"]) Demo.state_dict_keys
           Demo.load_state_dict "dna"
           (Demo.start "roberta_large"
              [("encoder.sentence_encoder.embed_tokens.weight", 7)] None)
           (PStr "roberta_large") "Unknown theme selected"); reflexivity.
Defined.

Lemma load_success_witness :
  let w := Demo.start "protein_bert_base" [("decoder.x", 0)] None in
  (Demo.load ["x"; "contact_head.regression.weight"] "protein" w).1
    = inr (["x"; "contact_head.regression.weight"], 1%Z) /\
  exists arch model model_state mtype w1,
    PyDict.get "arch" (ck_args (model_data w)) = Some arch /\
    Demo.build ["x"; "contact_head.regression.weight"] "protein" w
      = (inr (model, model_state, mtype, 1%Z), w1) /\
    (PyDict.keys model_state ∖ list_to_set (Demo.state_dict_keys model) = ∅).
Proof.
  split; [reflexivity|].
  destruct (load_success 0%Z Demo.from_architecture Demo.mask_idx
              (Demo.construct ["x"; "contact_head.regression.weight"])
              Demo.state_dict_keys Demo.load_state_dict "protein"
              (Demo.start "protein_bert_base" [("decoder.x", 0)] None)
              ["x"; "contact_head.regression.weight"] 1%Z eq_refl)
    as (arch & model & model_state & mtype & w1 & Harch & _ & Hb & _ & Hkeys).
  exists arch, model, model_state, mtype, w1.
  split; [exact Harch|]. split; [exact Hb|]. exact (proj1 (Hkeys eq_refl)).
Defined.


Lemma reload_same_result_witness :
  let w := Demo.start "roberta_large"
             [("encoder.sentence_encoder.embed_tokens.weight", 7)]
             (Some [("contact_head.regression.weight", 8)]) in
  (forall reg, regression_data w = Some reg -> NoDup (ck_model reg).*1) /\
  (Demo.load ["embed_tokens.weight"; "contact_head.regression.weight"] "protein"
     (Demo.load ["embed_tokens.weight"; "contact_head.regression.weight"]
        "protein" w).2).1
  = (Demo.load ["embed_tokens.weight"; "contact_head.regression.weight"]
       "protein" w).1.
Proof.
  assert (forall reg,
    regression_data (Demo.start "roberta_large"
       [("encoder.sentence_encoder.embed_tokens.weight", 7)]
       (Some [("contact_head.regression.weight", 8)])) = Some reg ->
    NoDup (ck_model reg).*1) as Hwf.
  { intros reg [= <-]. apply (bool_decide_unpack _). vm_compute. exact I. }
  split; [exact Hwf|].
  apply (reload_same_result 0%Z Demo.from_architecture Demo.mask_idx
           (Demo.construct ["embed_tokens.weight"; "contact_head.regression.weight"])
           Demo.state_dict_keys Demo.load_state_dict "protein" _ Hwf).
Defined.

Lemma hub_fallback_file_witness :
  (PyStr.contains "/" "esm1_t6_43M_UR50S" = false /\
   DemoIO.load_state_dict_from_url (model_url "esm1_t6_43M_UR50S")
     = inl (LoadRuntimeError "zip archive")) /\
  load_hub_workaround DemoIO.torch_load DemoIO.load_state_dict_from_url
    "/cache/hub" (model_url "esm1_t6_43M_UR50S")
    = DemoIO.torch_load ("/cache/hub" +:+ "/checkpoints/"
                           +:+ "esm1_t6_43M_UR50S" +:+ ".pt").
Proof.
  split; [split; reflexivity|].
  apply (hub_fallback_file DemoIO.torch_load DemoIO.load_state_dict_from_url
           "/cache/hub" "esm1_t6_43M_UR50S" "zip archive"); reflexivity.
Defined.

Lemma hub_load_has_regression_witness :
  let w' := {| model_data :=
                 {| ck_args := [("arch", PStr "protein_bert_base")];
                    ck_model := [("decoder.x", 0); ("y", 1)] |};
               regression_data := Some (Checkpoint [] [("y", 1)]);
               tensors := fun _ => Demo.some_tensor;
               inplace_refused := fun _ => false;
               warnings := [] |} in
  load_model_and_alphabet_hub 0%Z Demo.from_architecture Demo.mask_idx
    (Demo.construct ["x"; "y"]) Demo.state_dict_keys Demo.load_state_dict
    DemoIO.torch_load DemoIO.load_state_dict_from_url "/cache/hub"
    (fun _ => (Demo.some_tensor, false)) "esm1_t6_43M_UR50S" "protein"
    = inr (inr (["x"; "y"], 1%Z), w') /\
  warnings w' = [].
Proof.
  split; [reflexivity|].
  apply (hub_load_has_regression 0%Z Demo.from_architecture Demo.mask_idx
           (Demo.construct ["x"; "y"]) Demo.state_dict_keys Demo.load_state_dict
           DemoIO.torch_load DemoIO.load_state_dict_from_url "/cache/hub"
           (fun _ => (Demo.some_tensor, false)) "esm1_t6_43M_UR50S" "protein"
           (inr (["x"; "y"], 1%Z))).
  reflexivity.
Defined.
